(** * pygit2 [src/tree.c]: tree entries, trees and tree iterators

    A shallow embedding of the C extension code of [tree.c] (TreeEntry,
    Tree and TreeIter objects) and the properties of it that the design
    document states.

    The C functions are translated one by one and keep their names.  They
    live in a small monad [M] that threads what the C code threads
    implicitly: CPython's error indicator (the pending exception) and the
    sequence of requests made to libgit2's diff engine.  A computation can
    also end in a [Crash], which stands for C undefined behaviour (reading
    through a NULL pointer, reading a variable that was never assigned).

    libgit2, CPython's allocator and pygit2's helper files ([utils.h],
    [error.c], [object.c], [diff.c]) are not part of [tree.c]; what the
    code needs of them is collected in the class [Externals]. *)

From Stdlib Require Import ZArith List String Ascii Bool Lia Sorted.
Import ListNotations.

Local Open Scope string_scope.
Local Open Scope list_scope.
Local Open Scope Z_scope.

(** ** C integer types (LP64 data model) *)

Module CInt.

Definition wrap_unsigned (bits z : Z) : Z := z mod 2 ^ bits.

Definition wrap_signed (bits z : Z) : Z :=
  (z + 2 ^ (bits - 1)) mod 2 ^ bits - 2 ^ (bits - 1).

Definition INT_MIN : Z := - 2 ^ 31.
Definition INT_MAX : Z := 2 ^ 31 - 1.
Definition LONG_MIN : Z := - 2 ^ 63.
Definition LONG_MAX : Z := 2 ^ 63 - 1.

(** Conversions, as the casts and implicit conversions of the source. *)
Definition to_int : Z -> Z := wrap_signed 32.
Definition to_long : Z -> Z := wrap_signed 64.
Definition to_size_t : Z -> Z := wrap_unsigned 64.
Definition to_uint : Z -> Z := wrap_unsigned 32.
Definition to_ushort : Z -> Z := wrap_unsigned 16.

(** The size of a pointer, [sizeof] of a [git_index] pointer. *)
Definition sizeof_pointer : Z := 8.

End CInt.
Import CInt.

(** ** libgit2 data *)

(** A [git_oid] is a sequence of raw bytes (20 for SHA-1). *)
Definition git_oid := list Z.

(** [git_tree_entry]: file mode bits, file name, object id. *)
Record git_tree_entry := mk_entry {
  attr : Z;
  filename : string;
  oid : git_oid
}.

(** A [git_tree] holds its entries in storage order. *)
Definition git_tree := list git_tree_entry.

Inductive git_otype := GIT_OBJ_COMMIT | GIT_OBJ_TREE | GIT_OBJ_BLOB | GIT_OBJ_TAG.

Inductive git_object :=
| git_object_tree (t : git_tree)
| git_object_blob (content : string)
| git_object_other (kind : git_otype) (id : git_oid).

(** Handles that the code only passes around. *)
Definition git_repository := nat.
Definition git_diff := nat.
(** A pointer to a [git_index], kept as the bytes it was read from. *)
Definition git_index := string.

Record git_diff_options := mk_opts {
  flags : Z;
  context_lines : Z;
  interhunk_lines : Z
}.

(** libgit2 functions return [0] and store their result, or return an
    error code and store nothing. *)
Inductive lg2_result (A : Type) :=
| lg2_ok (a : A)
| lg2_error (code : Z).
Arguments lg2_ok {A} a.
Arguments lg2_error {A} code.

(** [GIT_ENOTFOUND] of libgit2's [errors.h]. *)
Definition GIT_ENOTFOUND : Z := -3.

Definition git_tree_entrycount (tree : git_tree) : Z := Z.of_nat (List.length tree).

(** [git_tree_entry_byindex(tree, idx)] with [idx] a [size_t]: the entry
    at that position, NULL when there is none. *)
Definition git_tree_entry_byindex (tree : git_tree) (idx : Z) : option git_tree_entry :=
  if idx <? 0 then None else nth_error tree (Z.to_nat idx).

Definition git_tree_entry_id (e : git_tree_entry) : git_oid := oid e.
Definition git_tree_entry_name (e : git_tree_entry) : string := filename e.
Definition git_tree_entry_filemode (e : git_tree_entry) : Z := attr e.

(** ** Python objects *)

(** [Repository]: [py_repo->repo] is the libgit2 handle. *)
Record Repository := mk_Repository { Repository_repo : git_repository }.

(** The [repo] field of a TreeEntry as the program finds it: a
    repository, NULL, or what the memory held when the object was
    allocated, the field never having been assigned. *)
Inductive repo_field :=
| repo_is (r : Repository)
| repo_NULL
| repo_unassigned.

(** [TreeEntry]: [self->entry], [self->repo]. *)
Record TreeEntry := mk_TreeEntry {
  TreeEntry_entry : git_tree_entry;
  TreeEntry_repo : repo_field
}.

(** The field after [wrap_tree_entry]: it is assigned only when the
    repository handed in is not NULL, and [PyObject_New] does not clear
    the memory it returns. *)
Definition wrapped_repo (repo : option Repository) : repo_field :=
  match repo with
  | Some r => repo_is r
  | None => repo_unassigned
  end.

(** [Tree]: [self->tree], [self->repo] (NULL when there is none). *)
Record Tree := mk_Tree {
  Tree_tree : git_tree;
  Tree_repo : option Repository
}.

(** Modelled from the spec: the declaration of [TreeIter] is in
    [types.h], not in [tree.c].  [self->owner] is the Tree being walked
    and [self->i] the cursor, a zero-based position that only increases;
    the model puts no bound on it. *)
Record TreeIter := mk_TreeIter {
  TreeIter_owner : Tree;
  TreeIter_i : Z
}.

#[local] Set Warnings "-register-all".
Inductive PyObject : Type :=
| Py_None
| Py_NotImplemented
| Py_Bool (b : bool)
| PyLong (z : Z)
| PyBytes (s : string)
| PyUnicode (s : string)
| PyTreeEntryObject (e : TreeEntry)
| PyTreeObject (t : Tree)
| PyGitObject (o : git_object) (r : option Repository)
| PyDiffObject (d : git_diff) (r : Repository)
| PyInstance (cls : string) (attrs : list (string * PyObject)).

Definition Py_True : PyObject := Py_Bool true.
Definition Py_False : PyObject := Py_Bool false.

Inductive PyTypeObject := TreeType | TreeEntryType | TreeIterType.

(** [PyObject_TypeCheck(o, &TreeEntryType)] *)
Definition is_TreeEntry (o : PyObject) : bool :=
  match o with PyTreeEntryObject _ => true | _ => false end.

(** [PyInt_Check]: Python integers, booleans included (Python 3, where
    the [PyInt_] names of the source stand for [PyLong_]). *)
Definition PyInt_Check (o : PyObject) : bool :=
  match o with PyLong _ | Py_Bool _ => true | _ => false end.

(** Rich comparison opcodes of [object.h]. *)
Definition Py_LT : Z := 0.
Definition Py_LE : Z := 1.
Definition Py_EQ : Z := 2.
Definition Py_NE : Z := 3.
Definition Py_GT : Z := 4.
Definition Py_GE : Z := 5.

(** ** Exceptions *)

Inductive PyExcType :=
| PyExc_TypeError | PyExc_ValueError | PyExc_IndexError | PyExc_KeyError
| PyExc_MemoryError | PyExc_RuntimeError | PyExc_OverflowError
| PyExc_AttributeError.

(** What an exception carries: nothing ([PyErr_SetNone]), a message
    ([PyErr_SetString]), a formatted message with its integer argument
    ([PyErr_Format]), an object ([PyErr_SetObject]), or a text composed
    outside [tree.c] (inside CPython or a helper) that the file does not
    determine. *)
Inductive PyErrValue :=
| NoValue
| Text (msg : string)
| Format (fmt : string) (arg : Z)
| Value (o : PyObject)
| Internal.

Inductive PyErr :=
| Raised (t : PyExcType) (v : PyErrValue)
| git_error (code : Z).
(** [git_error code] is the exception [Error_set(code)] of [error.c] raises
    for a libgit2 error code. *)

(** ** The monad of the C code *)

Inductive DiffCall :=
| diff_tree_to_workdir (repo : git_repository) (tree : git_tree) (opts : git_diff_options)
| diff_tree_to_index (repo : git_repository) (tree : git_tree) (index : git_index)
                     (opts : git_diff_options)
| diff_tree_to_tree (repo : git_repository) (from to : option git_tree)
                    (opts : git_diff_options).

Record PyState := mk_state {
  err_indicator : option PyErr;
  engine_calls : list DiffCall
}.

Inductive Fault := NullDereference | UninitializedRead.

Inductive Outcome (A : Type) :=
| Returns (a : A) (s : PyState)
| Crash (why : Fault).
Arguments Returns {A} a s.
Arguments Crash {A} why.

Definition M (A : Type) : Type := PyState -> Outcome A.

Definition ret {A} (a : A) : M A := fun s => Returns a s.

Definition bind {A B} (c : M A) (k : A -> M B) : M B :=
  fun s => match c s with
           | Returns a s' => k a s'
           | Crash why => Crash why
           end.

Definition crash {A} (why : Fault) : M A := fun _ => Crash why.

Notation "x <- c ;; k" := (bind c (fun x => k))
  (at level 61, c at next level, right associativity).
Notation "c ;; k" := (bind c (fun _ => k))
  (at level 61, right associativity).

(** A state with no exception pending. *)
Definition no_error (calls : list DiffCall) : PyState :=
  {| err_indicator := None; engine_calls := calls |}.

(** The state [s] once exception [e] has been set. *)
Definition with_error (s : PyState) (e : PyErr) : PyState :=
  {| err_indicator := Some e; engine_calls := engine_calls s |}.

Definition set_error (e : PyErr) : M unit :=
  fun s => Returns tt (with_error s e).

Definition PyErr_SetString (t : PyExcType) (msg : string) : M unit :=
  set_error (Raised t (Text msg)).
Definition PyErr_Format (t : PyExcType) (fmt : string) (arg : Z) : M unit :=
  set_error (Raised t (Format fmt arg)).
Definition PyErr_SetObject (t : PyExcType) (o : PyObject) : M unit :=
  set_error (Raised t (Value o)).
Definition PyErr_SetNone (t : PyExcType) : M unit :=
  set_error (Raised t NoValue).

Definition PyErr_Occurred : M bool :=
  fun s => Returns (match err_indicator s with Some _ => true | None => false end) s.

(** [Error_set(err)]: raises the exception of the libgit2 code and
    returns NULL. *)
Definition Error_set {A} (err : Z) : M (option A) :=
  set_error (git_error err) ;; ret None.

(** The state [s] once request [c] has been made to the diff engine. *)
Definition after_request (s : PyState) (c : DiffCall) : PyState :=
  {| err_indicator := err_indicator s; engine_calls := engine_calls s ++ [c] |}.

(** Records a request to the diff engine.  In a request the NULL tree
    ([None]) is what the engine takes for the empty tree. *)
Definition request (c : DiffCall) : M unit :=
  fun s => Returns tt (after_request s c).

(** ** What [tree.c] takes from outside *)

Class Externals := {
  (** libgit2: entries *)
  git_tree_entry_type : git_tree_entry -> git_otype;
  git_tree_entry_cmp : git_tree_entry -> git_tree_entry -> Z;
  git_oid_cmp : git_oid -> git_oid -> Z;
  git_tree_entry_dup : git_tree_entry -> lg2_result git_tree_entry;
  (** libgit2: the object store *)
  git_tree_lookup : git_repository -> git_oid -> lg2_result git_tree;
  git_tree_entry_to_object : git_repository -> git_tree_entry -> lg2_result git_object;
  git_tree_entry_bypath : git_tree -> string -> lg2_result git_tree_entry;
  (** libgit2: the diff engine and the initial value of its options *)
  GIT_DIFF_OPTIONS_INIT : git_diff_options;
  git_diff_tree_to_workdir :
    git_repository -> git_tree -> git_diff_options -> lg2_result git_diff;
  git_diff_tree_to_index :
    git_repository -> git_tree -> git_index -> git_diff_options -> lg2_result git_diff;
  git_diff_tree_to_tree :
    git_repository -> option git_tree -> option git_tree -> git_diff_options ->
    lg2_result git_diff;
  (** CPython: whether the allocator has memory for a new instance *)
  allocates : PyTypeObject -> bool;
  (** pygit2's [utils.h]: the C string of a path argument, or the
      exception raised for a value that has none *)
  path_to_c_str : PyObject -> PyErr + string
}.

(** Allocation succeeds: a duplicated entry is a copy of its source and
    [PyObject_New] returns an object. *)
Definition allocation_succeeds `{Externals} : Prop :=
  (forall e, git_tree_entry_dup e = lg2_ok e) /\
  (forall t, allocates t = true).

Section TreeC.

Context `{Externals}.

(** *** CPython and pygit2 helpers used by [tree.c] *)

(** [PyObject_New]: an instance, or NULL with MemoryError. *)
Definition PyObject_New (t : PyTypeObject) : M bool :=
  if allocates t then ret true
  else set_error (Raised PyExc_MemoryError Internal) ;; ret false.

(** [PyInt_AsLong]: the value when it fits a C long, else [-1] with
    OverflowError; TypeError for what is no integer. *)
Definition PyInt_AsLong (o : PyObject) : M Z :=
  match o with
  | PyLong z =>
      if (LONG_MIN <=? z) && (z <=? LONG_MAX) then ret z
      else set_error (Raised PyExc_OverflowError Internal) ;; ret (-1)
  | Py_Bool b => ret (Z.b2z b)
  | _ => set_error (Raised PyExc_TypeError Internal) ;; ret (-1)
  end.

Fixpoint lookup_attr (name : string) (attrs : list (string * PyObject))
  : option PyObject :=
  match attrs with
  | [] => None
  | (n, v) :: rest => if String.eqb n name then Some v else lookup_attr name rest
  end.

(** The attributes of an object.  Only instances of Python classes carry
    attributes here; the built-in values and the extension types have
    none of the names [tree.c] asks for first. *)
Definition getattr (o : PyObject) (name : string) : option PyObject :=
  match o with
  | PyInstance _ attrs => lookup_attr name attrs
  | _ => None
  end.

(** [PyObject_GetAttrString]: the attribute, or NULL with AttributeError. *)
Definition PyObject_GetAttrString (o : PyObject) (name : string)
  : M (option PyObject) :=
  match getattr o name with
  | Some v => ret (Some v)
  | None => set_error (Raised PyExc_AttributeError Internal) ;; ret None
  end.

(** [PyBytes_AsStringAndSize]: buffer and length of a bytes object, or
    failure with TypeError. *)
Definition PyBytes_AsStringAndSize (o : PyObject) : M (option (string * Z)) :=
  match o with
  | PyBytes s => ret (Some (s, Z.of_nat (String.length s)))
  | _ => set_error (Raised PyExc_TypeError Internal) ;; ret None
  end.

(** [py_path_to_c_str] of [utils.h]: NULL with the exception set when
    the value is no path. *)
Definition py_path_to_c_str (value : PyObject) : M (option string) :=
  match path_to_c_str value with
  | inr s => ret (Some s)
  | inl e => set_error e ;; ret None
  end.

(** Modelled from the spec: [wrap_object] of [object.c] is not part of
    [tree.c]; resolving yields the Tree, Blob or Commit object of the
    libgit2 object, associated with the repository it was given. *)
Definition wrap_object (obj : git_object) (repo : option Repository) : PyObject :=
  match obj with
  | git_object_tree t => PyTreeObject {| Tree_tree := t; Tree_repo := repo |}
  | _ => PyGitObject obj repo
  end.

(** Modelled from the spec: [wrap_diff] of [diff.c] is not part of
    [tree.c]; it returns the opaque Diff handle of the engine's result. *)
Definition wrap_diff (diff : git_diff) (py_repo : Repository) : PyObject :=
  PyDiffObject diff py_repo.

(** *** Argument parsing ([PyArg_ParseTuple] and its format units) *)

(* "I": unsigned int, without overflow checking *)
Definition convert_I (o : PyObject) : PyErr + Z :=
  match o with
  | PyLong z => inr (to_uint z)
  | Py_Bool b => inr (Z.b2z b)
  | _ => inl (Raised PyExc_TypeError Internal)
  end.

(* "H": unsigned short, without overflow checking *)
Definition convert_H (o : PyObject) : PyErr + Z :=
  match o with
  | PyLong z => inr (to_ushort z)
  | Py_Bool b => inr (Z.b2z b)
  | _ => inl (Raised PyExc_TypeError Internal)
  end.

(* "i": int, with overflow checking *)
Definition convert_i (o : PyObject) : PyErr + Z :=
  match o with
  | PyLong z =>
      if (INT_MIN <=? z) && (z <=? INT_MAX) then inr z
      else inl (Raised PyExc_OverflowError Internal)
  | Py_Bool b => inr (Z.b2z b)
  | _ => inl (Raised PyExc_TypeError Internal)
  end.

(* "O!" with [&TreeType] *)
Definition convert_Tree (o : PyObject) : PyErr + Tree :=
  match o with
  | PyTreeObject t => inr t
  | _ => inl (Raised PyExc_TypeError Internal)
  end.

(** An optional unit keeps the variable's value when no argument is
    supplied for it. *)
Definition optional {A} (convert : PyObject -> PyErr + A) (slot : option PyObject)
  (current : A) : PyErr + A :=
  match slot with
  | None => inr current
  | Some o => convert o
  end.

(* the units "IHH" writing to opts.flags, opts.context_lines,
   opts.interhunk_lines *)
Definition parse_IHH (flags_arg context_arg interhunk_arg : option PyObject)
  (opts : git_diff_options) : PyErr + git_diff_options :=
  match optional convert_I flags_arg (flags opts) with
  | inl e => inl e
  | inr f =>
      match optional convert_H context_arg (context_lines opts) with
      | inl e => inl e
      | inr c =>
          match optional convert_H interhunk_arg (interhunk_lines opts) with
          | inl e => inl e
          | inr ih =>
              inr {| flags := f; context_lines := c; interhunk_lines := ih |}
          end
      end
  end.

(* PyArg_ParseTuple(args, "|IHH", ...) *)
Definition parse_workdir_args (args : list PyObject) (opts : git_diff_options)
  : PyErr + git_diff_options :=
  if (3 <? List.length args)%nat then inl (Raised PyExc_TypeError Internal)
  else parse_IHH (nth_error args 0) (nth_error args 1) (nth_error args 2) opts.

(* PyArg_ParseTuple(args, "O|IHH", ...) *)
Definition parse_index_args (args : list PyObject) (opts : git_diff_options)
  : PyErr + (PyObject * git_diff_options) :=
  match args with
  | [] => inl (Raised PyExc_TypeError Internal)
  | py_idx :: rest =>
      if (3 <? List.length rest)%nat then inl (Raised PyExc_TypeError Internal)
      else
        match parse_IHH (nth_error rest 0) (nth_error rest 1) (nth_error rest 2) opts with
        | inl e => inl e
        | inr opts => inr (py_idx, opts)
        end
  end.

(* char *keywords[] of Tree_diff_to_tree *)
Definition keywords : list string :=
  ["obj"; "flags"; "context_lines"; "interhunk_lines"; "swap"].

(** The argument for the keyword at position [pos]: positional when the
    tuple is long enough, else by name. *)
Definition argument (args : list PyObject) (kwds : list (string * PyObject))
  (pos : nat) (name : string) : option PyObject :=
  match nth_error args pos with
  | Some o => Some o
  | None => lookup_attr name kwds
  end.

(** A keyword argument is accepted when its name is one of [keywords]
    and it is not also given by position. *)
Fixpoint index_of (name : string) (names : list string) : option nat :=
  match names with
  | [] => None
  | n :: rest =>
      if String.eqb n name then Some 0%nat
      else option_map S (index_of name rest)
  end.

Definition keyword_accepted (nargs : nat) (kw : string * PyObject) : bool :=
  match index_of (fst kw) keywords with
  | Some pos => (nargs <=? pos)%nat
  | None => false
  end.

(* PyArg_ParseTupleAndKeywords(args, kwds, "|O!IHHi", keywords, &TreeType, ...)
   In the order of CPython: the number of arguments, then the conversions
   in the order of [keywords], then the names of the keyword arguments. *)
Definition parse_tree_args (args : list PyObject) (kwds : list (string * PyObject))
  (opts : git_diff_options) (swap : Z)
  : PyErr + (option Tree * git_diff_options * Z) :=
  if (5 <? List.length args + List.length kwds)%nat
  then inl (Raised PyExc_TypeError Internal)
  else
    let arg := argument args kwds in
    match optional (fun o => match convert_Tree o with
                             | inl e => inl e
                             | inr t => inr (Some t)
                             end) (arg 0%nat "obj") None with
    | inl e => inl e
    | inr py_tree =>
        match parse_IHH (arg 1%nat "flags") (arg 2%nat "context_lines")
                (arg 3%nat "interhunk_lines") opts with
        | inl e => inl e
        | inr opts =>
            match optional convert_i (arg 4%nat "swap") swap with
            | inl e => inl e
            | inr swap =>
                if forallb (keyword_accepted (List.length args)) kwds
                then inr (py_tree, opts, swap)
                else inl (Raised PyExc_TypeError Internal)
            end
        end
    end.

(** The parsers as the C code sees them: false with the exception set. *)
Definition PyArg_Parse {A} (parsed : PyErr + A) : M (option A) :=
  match parsed with
  | inr a => ret (Some a)
  | inl e => set_error e ;; ret None
  end.

(** *** TreeEntry: attributes and comparison *)

(* static int compare_ids(TreeEntry *a, TreeEntry *b) *)
Definition compare_ids (a b : TreeEntry) : Z :=
  let id_a := git_tree_entry_id (TreeEntry_entry a) in
  let id_b := git_tree_entry_id (TreeEntry_entry b) in
  git_oid_cmp id_a id_b.

(* PyObject *TreeEntry_richcompare(PyObject *a, PyObject *b, int op) *)
Definition TreeEntry_richcompare (a : TreeEntry) (b : PyObject) (op : Z)
  : M (option PyObject) :=
  match b with
  | PyTreeEntryObject tb =>
      let ta := a in
      let cmp := git_tree_entry_cmp (TreeEntry_entry ta) (TreeEntry_entry tb) in
      let cmp := if cmp =? 0 then compare_ids ta tb else cmp in
      if op =? Py_LT then ret (Some (if cmp <=? 0 then Py_True else Py_False))
      else if op =? Py_LE then ret (Some (if cmp <? 0 then Py_True else Py_False))
      else if op =? Py_EQ then ret (Some (if cmp =? 0 then Py_True else Py_False))
      else if op =? Py_NE then ret (Some (if negb (cmp =? 0) then Py_True else Py_False))
      else if op =? Py_GT then ret (Some (if cmp >? 0 then Py_True else Py_False))
      else if op =? Py_GE then ret (Some (if cmp >=? 0 then Py_True else Py_False))
      else PyErr_Format PyExc_RuntimeError "Unexpected '%d' op" op ;; ret None
  | _ => ret (Some Py_NotImplemented)
  end.

(** The two-level comparison of the design document: the canonical
    comparator, and the object ids when it reports equality. *)
Definition two_level (a b : TreeEntry) : Z :=
  let cmp := git_tree_entry_cmp (TreeEntry_entry a) (TreeEntry_entry b) in
  if cmp =? 0 then git_oid_cmp (oid (TreeEntry_entry a)) (oid (TreeEntry_entry b))
  else cmp.

(** The exceptions of a failed resolution. *)
Definition not_a_tree : PyErr := Raised PyExc_TypeError (Text "Only for trees").
Definition not_a_blob : PyErr := Raised PyExc_TypeError (Text "Only for blobs").
Definition no_repository : PyErr :=
  Raised PyExc_ValueError (Text "No repository associated with this TreeEntry").

(** Reading [self->repo]: the pointer the field holds; reading a field
    that was never assigned is undefined. *)
Definition read_repo (self : TreeEntry) : M (option Repository) :=
  match TreeEntry_repo self with
  | repo_is py_repo => ret (Some py_repo)
  | repo_NULL => ret None
  | repo_unassigned => crash UninitializedRead
  end.

(* git_tree *treeentry_to_subtree(TreeEntry* self) *)
Definition treeentry_to_subtree (self : TreeEntry) : M (option git_tree) :=
  match git_tree_entry_type (TreeEntry_entry self) with
  | GIT_OBJ_TREE =>
      repo <- read_repo self ;;
      match repo with
      | None =>
          PyErr_SetString PyExc_ValueError
            "No repository associated with this TreeEntry" ;;
          ret None
      | Some py_repo =>
          match git_tree_lookup (Repository_repo py_repo)
                  (git_tree_entry_id (TreeEntry_entry self)) with
          | lg2_ok subtree => ret (Some subtree)
          | lg2_error err =>
              (* [subtree] still holds its initial NULL *)
              if err <? 0 then Error_set err else ret None
          end
      end
  | _ => PyErr_SetString PyExc_TypeError "Only for trees" ;; ret None
  end.

(* PyObject *treeentry_to_object(TreeEntry* self) *)
Definition treeentry_to_object (self : TreeEntry) : M (option PyObject) :=
  repo <- read_repo self ;;
  match repo with
  | None =>
      PyErr_SetString PyExc_ValueError
        "No repository associated with this TreeEntry" ;;
      ret None
  | Some py_repo =>
      match git_tree_entry_to_object (Repository_repo py_repo)
              (TreeEntry_entry self) with
      | lg2_ok obj => ret (Some (wrap_object obj (Some py_repo)))
      | lg2_error err =>
          (* [obj] still holds its initial NULL, which [wrap_object] reads *)
          if err <? 0 then Error_set err else crash NullDereference
      end
  end.

(* PyObject *TreeEntry_tree__get__(TreeEntry *self) *)
Definition TreeEntry_tree__get__ (self : TreeEntry) : M (option PyObject) :=
  subtree <- treeentry_to_subtree self ;;
  match subtree with
  | None => ret None
  | Some subtree =>
      repo <- read_repo self ;;
      ret (Some (wrap_object (git_object_tree subtree) repo))
  end.

(* PyObject *TreeEntry_blob__get__(TreeEntry *self) *)
Definition TreeEntry_blob__get__ (self : TreeEntry) : M (option PyObject) :=
  match git_tree_entry_type (TreeEntry_entry self) with
  | GIT_OBJ_BLOB => treeentry_to_object self
  | _ => PyErr_SetString PyExc_TypeError "Only for blobs" ;; ret None
  end.

(** *** Tree: length, lookup by index and by path *)

(* Py_ssize_t Tree_len(Tree *self) *)
Definition Tree_len (self : Tree) : Z :=
  to_long (git_tree_entrycount (Tree_tree self)).

(* TreeEntry *wrap_tree_entry(const git_tree_entry *entry, Repository *repo)
   The source assigns [py_entry->repo] only when [repo] is not NULL: the
   field of an entry wrapped without repository is left unassigned. *)
Definition wrap_tree_entry (entry : git_tree_entry) (repo : option Repository)
  : M (option TreeEntry) :=
  py_entry <- PyObject_New TreeEntryType ;;
  if py_entry
  then ret (Some {| TreeEntry_entry := entry; TreeEntry_repo := wrapped_repo repo |})
  else ret None.

(* int Tree_fix_index(git_tree *tree, PyObject *py_index) *)
Definition Tree_fix_index (tree : git_tree) (py_index : PyObject) : M Z :=
  index <- PyInt_AsLong py_index ;;
  occurred <- PyErr_Occurred ;;
  if occurred then ret (-1)
  else
    let len := git_tree_entrycount tree in
    let slen := to_long len in
    if index >=? slen then
      PyErr_SetObject PyExc_IndexError py_index ;; ret (-1)
    else if index <? - slen then
      PyErr_SetObject PyExc_IndexError py_index ;; ret (-1)
    else
      (* mp_subscript does no negative index rewriting *)
      let index := if index <? 0 then to_long (to_size_t (len + index)) else index in
      ret (to_int index).

(* TreeEntry *tree_getitem_by_index(const git_tree *tree, Repository *repo,
                                    PyObject *py_index) *)
Definition tree_getitem_by_index (tree : git_tree) (repo : option Repository)
  (py_index : PyObject) : M (option TreeEntry) :=
  index <- Tree_fix_index tree py_index ;;
  occurred <- PyErr_Occurred ;;
  if occurred then ret None
  else
    match git_tree_entry_byindex tree (to_size_t index) with
    | None => PyErr_SetObject PyExc_IndexError py_index ;; ret None
    | Some entry_src =>
        match git_tree_entry_dup entry_src with
        | lg2_ok entry => wrap_tree_entry entry repo
        | lg2_error err =>
            if err <? 0 then PyErr_SetNone PyExc_MemoryError ;; ret None
            else crash UninitializedRead
        end
    end.

(* TreeEntry *tree_getitem_by_path(const git_tree *tree, Repository *repo,
                                   PyObject *py_path) *)
Definition tree_getitem_by_path (tree : git_tree) (repo : option Repository)
  (py_path : PyObject) : M (option TreeEntry) :=
  path <- py_path_to_c_str py_path ;;
  match path with
  | None =>
      PyErr_SetString PyExc_TypeError "Value must be a path string" ;; ret None
  | Some path =>
      match git_tree_entry_bypath tree path with
      | lg2_ok entry =>
          (* git_tree_entry_dup is already done in git_tree_entry_bypath *)
          wrap_tree_entry entry repo
      | lg2_error err =>
          if err =? GIT_ENOTFOUND then
            PyErr_SetObject PyExc_KeyError py_path ;; ret None
          else if err <? 0 then Error_set err
          else crash UninitializedRead
      end
  end.

(* int Tree_contains(Tree *self, PyObject *py_name) *)
Definition Tree_contains (self : Tree) (py_name : PyObject) : M Z :=
  name <- py_path_to_c_str py_name ;;
  match name with
  | None => ret (-1)
  | Some name =>
      match git_tree_entry_bypath (Tree_tree self) name with
      | lg2_ok entry => ret 1
      | lg2_error err =>
          if err =? GIT_ENOTFOUND then ret 0
          else if err <? 0 then (@Error_set unit err ;; ret (-1))
          else crash UninitializedRead
      end
  end.

(* TreeEntry *Tree_getitem(Tree *self, PyObject *value) *)
Definition Tree_getitem (self : Tree) (value : PyObject) : M (option TreeEntry) :=
  if PyInt_Check value
  then tree_getitem_by_index (Tree_tree self) (Tree_repo self) value
  else tree_getitem_by_path (Tree_tree self) (Tree_repo self) value.

(* TreeEntry *Tree_truediv(Tree *self, PyObject *value) *)
Definition Tree_truediv (self : Tree) (value : PyObject) : M (option TreeEntry) :=
  tree_getitem_by_path (Tree_tree self) (Tree_repo self) value.

(** *** TreeEntry: containment, indexing and division through the subtree *)

(* int TreeEntry_contains(TreeEntry *self, PyObject *py_name) *)
Definition TreeEntry_contains (self : TreeEntry) (py_name : PyObject) : M Z :=
  subtree <- treeentry_to_subtree self ;;
  match subtree with
  | None => ret (-1)
  | Some subtree =>
      name <- py_path_to_c_str py_name ;;
      match name with
      | None => ret (-1)
      | Some name =>
          match git_tree_entry_bypath subtree name with
          | lg2_ok entry => ret 1
          | lg2_error err =>
              if err =? GIT_ENOTFOUND then ret 0
              else if err <? 0 then (@Error_set unit err ;; ret (-1))
              else crash UninitializedRead
          end
      end
  end.

(* TreeEntry *TreeEntry_getitem(TreeEntry *self, PyObject *value) *)
Definition TreeEntry_getitem (self : TreeEntry) (value : PyObject)
  : M (option TreeEntry) :=
  subtree <- treeentry_to_subtree self ;;
  match subtree with
  | None => ret None
  | Some subtree =>
      repo <- read_repo self ;;
      if PyInt_Check value
      then tree_getitem_by_index subtree repo value
      else tree_getitem_by_path subtree repo value
  end.

(* TreeEntry *TreeEntry_truediv(TreeEntry *self, PyObject *value) *)
Definition TreeEntry_truediv (self : TreeEntry) (value : PyObject)
  : M (option TreeEntry) :=
  subtree <- treeentry_to_subtree self ;;
  match subtree with
  | None => ret None
  | Some subtree =>
      repo <- read_repo self ;;
      tree_getitem_by_path subtree repo value
  end.

(** *** Tree: the three diff entry points *)

(** What follows a call of the engine: the error of a negative code, or
    the wrapped Diff.  [diff] is assigned by the engine only. *)
Definition diff_result (r : lg2_result git_diff) (py_repo : Repository)
  : M (option PyObject) :=
  match r with
  | lg2_ok diff => ret (Some (wrap_diff diff py_repo))
  | lg2_error err => if err <? 0 then Error_set err else crash UninitializedRead
  end.

(* PyObject *Tree_diff_to_workdir(Tree *self, PyObject *args) *)
Definition Tree_diff_to_workdir (self : Tree) (args : list PyObject)
  : M (option PyObject) :=
  parsed <- PyArg_Parse (parse_workdir_args args GIT_DIFF_OPTIONS_INIT) ;;
  match parsed with
  | None => ret None
  | Some opts =>
      match Tree_repo self with
      | None => crash NullDereference          (* py_repo->repo *)
      | Some py_repo =>
          request (diff_tree_to_workdir (Repository_repo py_repo)
                     (Tree_tree self) opts) ;;
          diff_result
            (git_diff_tree_to_workdir (Repository_repo py_repo)
               (Tree_tree self) opts)
            py_repo
      end
  end.

(* PyObject *Tree_diff_to_index(Tree *self, PyObject *args, PyObject *kwds)
   [kwds] is not read: the arguments are parsed with PyArg_ParseTuple. *)
Definition Tree_diff_to_index (self : Tree) (args : list PyObject)
  (kwds : list (string * PyObject)) : M (option PyObject) :=
  parsed <- PyArg_Parse (parse_index_args args GIT_DIFF_OPTIONS_INIT) ;;
  match parsed with
  | None => ret None
  | Some (py_idx, opts) =>
      (* This is a hack to check whether we're passed an index *)
      has_index <- PyObject_GetAttrString py_idx "_index" ;;
      match has_index with
      | None =>
          PyErr_SetString PyExc_TypeError "argument must be an Index" ;;
          ret None
      | Some _ =>
          py_idx_ptr <- PyObject_GetAttrString py_idx "_pointer" ;;
          match py_idx_ptr with
          | None => ret None
          | Some py_idx_ptr =>
              bytes <- PyBytes_AsStringAndSize py_idx_ptr ;;
              match bytes with
              | None => ret None
              | Some (buffer, length) =>
                  if negb (length =? sizeof_pointer) then
                    PyErr_SetString PyExc_TypeError
                      "passed value is not a pointer" ;;
                    ret None
                  else
                    (* the "buffer" contains the pointer *)
                    let index : git_index := buffer in
                    match Tree_repo self with
                    | None => crash NullDereference    (* py_repo->repo *)
                    | Some py_repo =>
                        request (diff_tree_to_index (Repository_repo py_repo)
                                   (Tree_tree self) index opts) ;;
                        diff_result
                          (git_diff_tree_to_index (Repository_repo py_repo)
                             (Tree_tree self) index opts)
                          py_repo
                    end
              end
          end
      end
  end.

(* PyObject *Tree_diff_to_tree(Tree *self, PyObject *args, PyObject *kwds) *)
Definition Tree_diff_to_tree (self : Tree) (args : list PyObject)
  (kwds : list (string * PyObject)) : M (option PyObject) :=
  parsed <- PyArg_Parse (parse_tree_args args kwds GIT_DIFF_OPTIONS_INIT 0) ;;
  match parsed with
  | None => ret None
  | Some (py_tree, opts, swap) =>
      let to := match py_tree with
                | None => None
                | Some py_tree => Some (Tree_tree py_tree)
                end in
      let from := Some (Tree_tree self) in
      let '(from, to) := if swap >? 0 then (to, from) else (from, to) in
      match Tree_repo self with
      | None => crash NullDereference          (* py_repo->repo *)
      | Some py_repo =>
          request (diff_tree_to_tree (Repository_repo py_repo) from to opts) ;;
          diff_result
            (git_diff_tree_to_tree (Repository_repo py_repo) from to opts)
            py_repo
      end
  end.

(** *** TreeIter *)

(* PyObject *Tree_iter(Tree *self) *)
Definition Tree_iter (self : Tree) : M (option TreeIter) :=
  iter <- PyObject_New TreeIterType ;;
  if iter
  then ret (Some {| TreeIter_owner := self; TreeIter_i := 0 |})
  else ret None.

(* TreeEntry *TreeIter_iternext(TreeIter *self)
   The iterator object is mutated in place: the function returns the
   entry (or NULL) together with the iterator as it is afterwards. *)
Definition TreeIter_iternext (self : TreeIter) : M (option TreeEntry * TreeIter) :=
  match git_tree_entry_byindex (Tree_tree (TreeIter_owner self))
          (TreeIter_i self) with
  | None => ret (None, self)
  | Some entry_src =>
      let self := {| TreeIter_owner := TreeIter_owner self;
                     TreeIter_i := TreeIter_i self + 1 |} in
      match git_tree_entry_dup entry_src with
      | lg2_ok entry =>
          r <- wrap_tree_entry entry (Tree_repo (TreeIter_owner self)) ;;
          ret (r, self)
      | lg2_error err =>
          if err <? 0 then PyErr_SetNone PyExc_MemoryError ;; ret (None, self)
          else crash UninitializedRead
      end
  end.

(** *** Python's iteration protocol over a TreeIter *)

(** A consumer (a [for] loop, [list(...)]) calls [tp_iternext] until it
    returns NULL: NULL without a pending exception is the end of the
    sequence, NULL with one is an error.  [collect n it] makes at most
    [n] calls and returns the entries obtained, whether the iterator
    returned NULL, and the iterator afterwards. *)
Fixpoint collect (n : nat) (it : TreeIter) : M (list TreeEntry * bool * TreeIter) :=
  match n with
  | O => ret ([], false, it)
  | S n' =>
      r <- TreeIter_iternext it ;;
      match r with
      | (None, it') => ret ([], true, it')
      | (Some e, it') =>
          rest <- collect n' it' ;;
          let '(es, ended, it'') := rest in
          ret (e :: es, ended, it'')
      end
  end.

(** Two iterators driven in an arbitrary interleaving: [true] steps the
    first, [false] the second.  Returns what each yielded, in order. *)
Fixpoint interleave (schedule : list bool) (it1 it2 : TreeIter)
  : M (list TreeEntry * list TreeEntry) :=
  match schedule with
  | [] => ret ([], [])
  | true :: rest =>
      r <- TreeIter_iternext it1 ;;
      out <- interleave rest (snd r) it2 ;;
      ret (match fst r with Some e => e :: fst out | None => fst out end, snd out)
  | false :: rest =>
      r <- TreeIter_iternext it2 ;;
      out <- interleave rest it1 (snd r) ;;
      ret (fst out, match fst r with Some e => e :: snd out | None => snd out end)
  end.

(** [n] further calls of [next] on an iterator: the results of the
    calls and the iterator afterwards. *)
Fixpoint next_times (n : nat) (it : TreeIter) : M (list (option TreeEntry) * TreeIter) :=
  match n with
  | O => ret ([], it)
  | S n' =>
      r <- TreeIter_iternext it ;;
      rest <- next_times n' (snd r) ;;
      ret (fst r :: fst rest, snd rest)
  end.

End TreeC.

(** The entries of a tree are in canonical order when each sorts
    strictly before all that follow it. *)
Definition canonically_ordered `{Externals} (entries : list git_tree_entry) : Prop :=
  StronglySorted (fun a b => git_tree_entry_cmp a b < 0) entries.

(** The entry [e] of tree [T] as a lookup or an iterator of [T] returns
    it: a TreeEntry that shares [T]'s repository (with its field
    unassigned when [T] has none). *)
Definition entry_of (T : Tree) (e : git_tree_entry) : TreeEntry :=
  {| TreeEntry_entry := e; TreeEntry_repo := wrapped_repo (Tree_repo T) |}.

(** An iterator of [T] with its cursor at position [k]. *)
Definition iterator_at (T : Tree) (k : Z) : TreeIter :=
  {| TreeIter_owner := T; TreeIter_i := k |}.

(** How many steps of a schedule drive the first iterator ([true]) or
    the second ([false]). *)
Definition steps_of (which : bool) (schedule : list bool) : nat :=
  List.length (filter (Bool.eqb which) schedule).

(** A genuine index is an instance of pygit2's Python class [Index]. *)
Definition is_Index (o : PyObject) : bool :=
  match o with
  | PyInstance cls _ => String.eqb cls "Index"
  | _ => false
  end.

(** ** A concrete environment

    Used to run the code on examples.  Entries are ordered as libgit2
    orders them, the object store is empty, paths are resolved segment
    by segment through the store, the diff engine answers with a fixed
    handle and memory is never exhausted. *)

Module Sample.

(** File modes of a tree object (octal 040000, 0100644, 0160000). *)
Definition S_IFMT : Z := 61440.
Definition S_IFDIR : Z := 16384.
Definition S_IFREG_644 : Z := 33188.
Definition S_IFGITLINK : Z := 57344.

Definition entry_type (e : git_tree_entry) : git_otype :=
  if Z.land (attr e) S_IFMT =? S_IFGITLINK then GIT_OBJ_COMMIT
  else if Z.land (attr e) S_IFMT =? S_IFDIR then GIT_OBJ_TREE
  else GIT_OBJ_BLOB.

Definition code (a : ascii) : Z := Z.of_nat (nat_of_ascii a).

Definition sign (c1 c2 : Z) : Z :=
  if c1 <? c2 then -1 else if c1 >? c2 then 1 else 0.

(** The byte that ends a name in the ordering: the separator for a
    directory, NUL otherwise. *)
Definition terminator (isdir : bool) : Z := if isdir then code "/" else 0.

(** Modelled from the spec: the canonical comparator (libgit2's
    [git_tree_entry_cmp]) is not part of [tree.c]; names compare
    byte-wise, a directory's name as if it ended in a separator. *)
Fixpoint path_cmp (name1 : string) (isdir1 : bool) (name2 : string) (isdir2 : bool) : Z :=
  match name1, name2 with
  | String c1 rest1, String c2 rest2 =>
      if code c1 =? code c2 then path_cmp rest1 isdir1 rest2 isdir2
      else sign (code c1) (code c2)
  | EmptyString, String c2 _ => sign (terminator isdir1) (code c2)
  | String c1 _, EmptyString => sign (code c1) (terminator isdir2)
  | EmptyString, EmptyString => sign (terminator isdir1) (terminator isdir2)
  end.

Definition is_tree (e : git_tree_entry) : bool :=
  match entry_type e with GIT_OBJ_TREE => true | _ => false end.

Definition entry_cmp (e1 e2 : git_tree_entry) : Z :=
  path_cmp (filename e1) (is_tree e1) (filename e2) (is_tree e2).

(** Modelled from the spec: content identifiers (libgit2's
    [git_oid_cmp]) compare byte-wise. *)
Fixpoint oid_cmp (a b : git_oid) : Z :=
  match a, b with
  | x :: a', y :: b' => if x =? y then oid_cmp a' b' else sign x y
  | _, _ => 0
  end.

(** The direct child of a tree with a given name. *)
Fixpoint find_child (tree : git_tree) (name : string) : lg2_result git_tree_entry :=
  match tree with
  | [] => lg2_error GIT_ENOTFOUND
  | e :: rest => if String.eqb (filename e) name then lg2_ok e else find_child rest name
  end.

(** The segments of a path, split at the separator. *)
Fixpoint split_path (path : string) : list string :=
  match path with
  | EmptyString => [EmptyString]
  | String c rest =>
      if Ascii.eqb c "/" then EmptyString :: split_path rest
      else match split_path rest with
           | segment :: more => String c segment :: more
           | [] => [String c EmptyString]
           end
  end.

(** Modelled from the spec: the store's path resolution (libgit2's
    [git_tree_entry_bypath]) is not part of [tree.c]; a path of
    separated segments is resolved through the intermediate subtrees,
    which the store looks up by their ids, and the entry of the last
    segment is returned; an absent segment, or a segment that is no tree
    on the way, is not found; a failure of the store is passed on. *)
Fixpoint resolve_path (lookup : git_oid -> lg2_result git_tree)
  (path : list string) (tree : git_tree) : lg2_result git_tree_entry :=
  match path with
  | [] => lg2_error GIT_ENOTFOUND
  | segment :: rest =>
      match find_child tree segment with
      | lg2_error code => lg2_error code
      | lg2_ok e =>
          match rest with
          | [] => lg2_ok e
          | _ :: _ =>
              if is_tree e then
                match lookup (oid e) with
                | lg2_ok subtree => resolve_path lookup rest subtree
                | lg2_error code => lg2_error code
                end
              else lg2_error GIT_ENOTFOUND
          end
      end
  end.

Definition bypath (lookup : git_oid -> lg2_result git_tree)
  (tree : git_tree) (path : string) : lg2_result git_tree_entry :=
  resolve_path lookup (split_path path) tree.

(** A store that holds no object. *)
Definition empty_store (id : git_oid) : lg2_result git_tree :=
  lg2_error GIT_ENOTFOUND.

(** Modelled from the spec: the path conversion of [utils.h] is not
    part of [tree.c]; it accepts raw bytes and text and rejects any
    other value with a type error of its own. *)
Definition to_c_str (value : PyObject) : PyErr + string :=
  match value with
  | PyBytes s => inr s
  | PyUnicode s => inr s
  | _ => inl (Raised PyExc_TypeError Internal)
  end.

Definition env : Externals := {|
  git_tree_entry_type := entry_type;
  git_tree_entry_cmp := entry_cmp;
  git_oid_cmp := oid_cmp;
  git_tree_entry_dup := fun e => lg2_ok e;
  git_tree_lookup := fun _ id => empty_store id;
  git_tree_entry_to_object := fun _ _ => lg2_error GIT_ENOTFOUND;
  git_tree_entry_bypath := bypath empty_store;
  GIT_DIFF_OPTIONS_INIT := {| flags := 0; context_lines := 3; interhunk_lines := 0 |};
  git_diff_tree_to_workdir := fun _ _ _ => lg2_ok 1%nat;
  git_diff_tree_to_index := fun _ _ _ _ => lg2_ok 2%nat;
  git_diff_tree_to_tree := fun _ _ _ _ => lg2_ok 3%nat;
  allocates := fun _ => true;
  path_to_c_str := to_c_str
|}.

Definition zero_oid : git_oid := repeat 0 20.
Definition one_oid : git_oid := repeat 1 20.

(** The tree of the design document's scenario: a file and a
    directory, in canonical order. *)
Definition a_txt : git_tree_entry :=
  {| attr := S_IFREG_644; filename := "a.txt"; oid := zero_oid |}.
Definition b_dir : git_tree_entry :=
  {| attr := S_IFDIR; filename := "b"; oid := one_oid |}.
Definition scenario : git_tree := [a_txt; b_dir].

Definition the_repo : Repository := {| Repository_repo := 7%nat |}.

Definition scenario_tree : Tree :=
  {| Tree_tree := scenario; Tree_repo := Some the_repo |}.
Definition orphan_tree : Tree :=
  {| Tree_tree := scenario; Tree_repo := None |}.

(** An instance of Python's Index class and an object of another class
    that carries the same two attributes. *)
Definition an_index : PyObject :=
  PyInstance "Index" [("_index", Py_None); ("_pointer", PyBytes "ptr:7f3a")].
Definition an_impostor : PyObject :=
  PyInstance "Impostor" [("_index", Py_None); ("_pointer", PyBytes "AAAAAAAA")].

(** A second environment, whose object store holds the tree of the
    directory [b]: one file. *)
Definition c_txt : git_tree_entry :=
  {| attr := S_IFREG_644; filename := "c.txt"; oid := zero_oid |}.
Definition b_subtree : git_tree := [c_txt].

Fixpoint oid_eqb (a b : git_oid) : bool :=
  match a, b with
  | [], [] => true
  | x :: a', y :: b' => (x =? y) && oid_eqb a' b'
  | _, _ => false
  end.

Definition lookup_store (id : git_oid) : lg2_result git_tree :=
  if oid_eqb id one_oid then lg2_ok b_subtree else lg2_error GIT_ENOTFOUND.

Definition stocked : Externals := {|
  git_tree_entry_type := entry_type;
  git_tree_entry_cmp := entry_cmp;
  git_oid_cmp := oid_cmp;
  git_tree_entry_dup := fun e => lg2_ok e;
  git_tree_lookup := fun _ id => lookup_store id;
  git_tree_entry_to_object := fun _ _ => lg2_error GIT_ENOTFOUND;
  git_tree_entry_bypath := bypath lookup_store;
  GIT_DIFF_OPTIONS_INIT := {| flags := 0; context_lines := 3; interhunk_lines := 0 |};
  git_diff_tree_to_workdir := fun _ _ _ => lg2_ok 1%nat;
  git_diff_tree_to_index := fun _ _ _ _ => lg2_ok 2%nat;
  git_diff_tree_to_tree := fun _ _ _ _ => lg2_ok 3%nat;
  allocates := fun _ => true;
  path_to_c_str := to_c_str
|}.

(** A third environment, out of memory: no entry can be duplicated, no
    object allocated. *)
Definition exhausted : Externals := {|
  git_tree_entry_type := entry_type;
  git_tree_entry_cmp := entry_cmp;
  git_oid_cmp := oid_cmp;
  git_tree_entry_dup := fun _ => lg2_error (-1);
  git_tree_lookup := fun _ id => empty_store id;
  git_tree_entry_to_object := fun _ _ => lg2_error GIT_ENOTFOUND;
  git_tree_entry_bypath := bypath empty_store;
  GIT_DIFF_OPTIONS_INIT := {| flags := 0; context_lines := 3; interhunk_lines := 0 |};
  git_diff_tree_to_workdir := fun _ _ _ => lg2_ok 1%nat;
  git_diff_tree_to_index := fun _ _ _ _ => lg2_ok 2%nat;
  git_diff_tree_to_tree := fun _ _ _ _ => lg2_ok 3%nat;
  allocates := fun _ => false;
  path_to_c_str := to_c_str
|}.

End Sample.

(** ** Integer conversions that are exact *)

Lemma to_long_exact z : LONG_MIN <= z <= LONG_MAX -> to_long z = z.
Proof.
  unfold to_long, wrap_signed, LONG_MIN, LONG_MAX. intros Hz.
  change (2 ^ (64 - 1)) with 9223372036854775808.
  change (2 ^ 64) with 18446744073709551616.
  change (2 ^ 63) with 9223372036854775808 in Hz.
  rewrite Z.mod_small by lia. lia.
Qed.

Lemma to_int_exact z : INT_MIN <= z <= INT_MAX -> to_int z = z.
Proof.
  unfold to_int, wrap_signed, INT_MIN, INT_MAX. intros Hz.
  change (2 ^ (32 - 1)) with 2147483648.
  change (2 ^ 32) with 4294967296.
  change (2 ^ 31) with 2147483648 in Hz.
  rewrite Z.mod_small by lia. lia.
Qed.

Lemma to_size_t_exact z : 0 <= z <= LONG_MAX -> to_size_t z = z.
Proof.
  unfold to_size_t, wrap_unsigned, LONG_MAX. intros Hz.
  change (2 ^ 64) with 18446744073709551616.
  change (2 ^ 63) with 9223372036854775808 in Hz.
  apply Z.mod_small. lia.
Qed.

Lemma INT_MAX_value : INT_MAX = 2147483647.
Proof. reflexivity. Qed.

Lemma LONG_MAX_value : LONG_MAX = 9223372036854775807.
Proof. reflexivity. Qed.

Lemma LONG_MIN_value : LONG_MIN = -9223372036854775808.
Proof. reflexivity. Qed.

(** ** TreeEntry comparison *)

Section Comparison.

Context `{Externals}.

(** What the six operators compute from the two-level result. *)
Lemma TreeEntry_richcompare_result (a b : TreeEntry) (op : Z) (s : PyState) :
  TreeEntry_richcompare a (PyTreeEntryObject b) op s =
  let cmp := two_level a b in
  if op =? Py_LT then Returns (Some (Py_Bool (cmp <=? 0))) s
  else if op =? Py_LE then Returns (Some (Py_Bool (cmp <? 0))) s
  else if op =? Py_EQ then Returns (Some (Py_Bool (cmp =? 0))) s
  else if op =? Py_NE then Returns (Some (Py_Bool (negb (cmp =? 0)))) s
  else if op =? Py_GT then Returns (Some (Py_Bool (cmp >? 0))) s
  else if op =? Py_GE then Returns (Some (Py_Bool (cmp >=? 0))) s
  else Returns None
         (with_error s (Raised PyExc_RuntimeError (Format "Unexpected '%d' op" op))).
Proof.
  unfold TreeEntry_richcompare, two_level, compare_ids, git_tree_entry_id,
    Py_True, Py_False, ret.
  cbv zeta.
  destruct (op =? Py_LT); [destruct (_ <=? 0); reflexivity|].
  destruct (op =? Py_LE); [destruct (_ <? 0); reflexivity|].
  destruct (op =? Py_EQ); [destruct (_ =? 0); reflexivity|].
  destruct (op =? Py_NE); [destruct (negb _); reflexivity|].
  destruct (op =? Py_GT); [destruct (_ >? 0); reflexivity|].
  destruct (op =? Py_GE); [destruct (_ >=? 0); reflexivity|].
  reflexivity.
Qed.

(** The operators [==], [!=], [>] and [>=] read the two-level result in
    the standard way. *)
Lemma TreeEntry_richcompare_EQ_NE_GT_GE (a b : TreeEntry) (s : PyState) :
  TreeEntry_richcompare a (PyTreeEntryObject b) Py_EQ s
    = Returns (Some (Py_Bool (two_level a b =? 0))) s /\
  TreeEntry_richcompare a (PyTreeEntryObject b) Py_NE s
    = Returns (Some (Py_Bool (negb (two_level a b =? 0)))) s /\
  TreeEntry_richcompare a (PyTreeEntryObject b) Py_GT s
    = Returns (Some (Py_Bool (0 <? two_level a b))) s /\
  TreeEntry_richcompare a (PyTreeEntryObject b) Py_GE s
    = Returns (Some (Py_Bool (0 <=? two_level a b))) s.
Proof.
  rewrite !TreeEntry_richcompare_result. cbn.
  rewrite Z.gtb_ltb, Z.geb_leb. repeat split; reflexivity.
Qed.

(** On entries that compare equal, [<] answers True and [<=] answers
    False. *)
Lemma TreeEntry_richcompare_LT_LE_on_equal (a b : TreeEntry) (s : PyState) :
  two_level a b = 0 ->
  TreeEntry_richcompare a (PyTreeEntryObject b) Py_LT s = Returns (Some Py_True) s /\
  TreeEntry_richcompare a (PyTreeEntryObject b) Py_LE s = Returns (Some Py_False) s.
Proof.
  intros Heq. rewrite !TreeEntry_richcompare_result. cbn. rewrite Heq. split; reflexivity.
Qed.

(** C9: the comparison of a TreeEntry with a value that is not a
    TreeEntry returns NotImplemented, for each of the six operators (and
    whatever the opcode): no exception is raised, no boolean produced. *)
Theorem TreeEntry_richcompare_other_type (e : TreeEntry) (v : PyObject) (op : Z)
  (s : PyState) :
  is_TreeEntry v = false ->
  TreeEntry_richcompare e v op s = Returns (Some Py_NotImplemented) s.
Proof.
  intros Hv. destruct v; try reflexivity. discriminate Hv.
Qed.

End Comparison.

(** C1: on the entry [a.txt] compared with itself the two-level result
    is equality, and yet [<] answers True and [<=] answers False: the
    tests of the two operators are exchanged in the source. *)
Theorem TreeEntry_richcompare_LT_LE_exchanged :
  let e := entry_of Sample.scenario_tree Sample.a_txt in
  @two_level Sample.env e e = 0 /\
  @TreeEntry_richcompare Sample.env e (PyTreeEntryObject e) Py_LT (no_error [])
    = Returns (Some Py_True) (no_error []) /\
  @TreeEntry_richcompare Sample.env e (PyTreeEntryObject e) Py_LE (no_error [])
    = Returns (Some Py_False) (no_error []) /\
  @TreeEntry_richcompare Sample.env e (PyTreeEntryObject e) Py_EQ (no_error [])
    = Returns (Some Py_True) (no_error []).
Proof. repeat split; reflexivity. Qed.

Lemma TreeEntry_richcompare_other_type_witness :
  is_TreeEntry (PyLong 3) = false /\
  @TreeEntry_richcompare Sample.env
    (entry_of Sample.scenario_tree Sample.a_txt) (PyLong 3) Py_LT
    (no_error [])
  = Returns (Some Py_NotImplemented) (no_error []).
Proof.
  split; [reflexivity|].
  apply (@TreeEntry_richcompare_other_type Sample.env). reflexivity.
Defined.

(** ** Sequencing *)

Lemma bind_Returns {A B} (c : M A) (k : A -> M B) (s s' : PyState) (a : A) :
  c s = Returns a s' -> bind c k s = k a s'.
Proof. intros Hc. unfold bind. now rewrite Hc. Qed.

Lemma bind_Crash {A B} (c : M A) (k : A -> M B) (s : PyState) (why : Fault) :
  c s = Crash why -> bind c k s = Crash why.
Proof. intros Hc. unfold bind. now rewrite Hc. Qed.

(** ** Resolving an entry *)

Section Resolution.

Context `{Externals}.

Lemma treeentry_to_subtree_not_a_tree (e : TreeEntry) (s : PyState) :
  git_tree_entry_type (TreeEntry_entry e) <> GIT_OBJ_TREE ->
  treeentry_to_subtree e s = Returns None (with_error s not_a_tree).
Proof.
  intros Hkind. unfold treeentry_to_subtree.
  destruct (git_tree_entry_type (TreeEntry_entry e)); try reflexivity.
  now contradiction Hkind.
Qed.

Lemma treeentry_to_subtree_no_repository (e : TreeEntry) (s : PyState) :
  git_tree_entry_type (TreeEntry_entry e) = GIT_OBJ_TREE ->
  TreeEntry_repo e = repo_NULL ->
  treeentry_to_subtree e s = Returns None (with_error s no_repository).
Proof.
  intros Hkind Hrepo. unfold treeentry_to_subtree, read_repo, bind.
  rewrite Hkind, Hrepo. reflexivity.
Qed.

(** Whatever goes through the subtree fails the way its resolution
    fails. *)
Lemma through_subtree_failure (e : TreeEntry) (s s' : PyState) (v : PyObject) :
  treeentry_to_subtree e s = Returns None s' ->
  TreeEntry_tree__get__ e s = Returns None s' /\
  TreeEntry_contains e v s = Returns (-1) s' /\
  TreeEntry_getitem e v s = Returns None s' /\
  TreeEntry_truediv e v s = Returns None s'.
Proof.
  intros Hsub.
  unfold TreeEntry_tree__get__, TreeEntry_contains, TreeEntry_getitem,
    TreeEntry_truediv.
  rewrite !(bind_Returns _ _ _ _ _ Hsub). repeat split; reflexivity.
Qed.

(** The same when the resolution of the subtree ends in a crash. *)
Lemma through_subtree_crash (e : TreeEntry) (s : PyState) (v : PyObject)
  (why : Fault) :
  treeentry_to_subtree e s = Crash why ->
  TreeEntry_tree__get__ e s = Crash why /\
  TreeEntry_contains e v s = Crash why /\
  TreeEntry_getitem e v s = Crash why /\
  TreeEntry_truediv e v s = Crash why.
Proof.
  intros Hsub.
  unfold TreeEntry_tree__get__, TreeEntry_contains, TreeEntry_getitem,
    TreeEntry_truediv.
  rewrite !(bind_Crash _ _ _ _ Hsub). repeat split; reflexivity.
Qed.

(** C7, as the code has it by design: the kind of the entry is tested
    first.  Subtree resolution, and containment, indexing and path
    division with it, fail with TypeError "Only for trees" on an entry
    that is not a tree, whatever its repository field; blob resolution
    fails with TypeError "Only for blobs" on an entry that is not a
    blob.  When the kind test passes and the repository field is NULL,
    they fail with ValueError "No repository associated with this
    TreeEntry". *)
Theorem resolution_failures (e : TreeEntry) (v : PyObject) (s : PyState) :
  (git_tree_entry_type (TreeEntry_entry e) <> GIT_OBJ_TREE ->
     treeentry_to_subtree e s = Returns None (with_error s not_a_tree) /\
     TreeEntry_tree__get__ e s = Returns None (with_error s not_a_tree) /\
     TreeEntry_contains e v s = Returns (-1) (with_error s not_a_tree) /\
     TreeEntry_getitem e v s = Returns None (with_error s not_a_tree) /\
     TreeEntry_truediv e v s = Returns None (with_error s not_a_tree)) /\
  (git_tree_entry_type (TreeEntry_entry e) = GIT_OBJ_TREE ->
   TreeEntry_repo e = repo_NULL ->
     treeentry_to_subtree e s = Returns None (with_error s no_repository) /\
     TreeEntry_tree__get__ e s = Returns None (with_error s no_repository) /\
     TreeEntry_contains e v s = Returns (-1) (with_error s no_repository) /\
     TreeEntry_getitem e v s = Returns None (with_error s no_repository) /\
     TreeEntry_truediv e v s = Returns None (with_error s no_repository)) /\
  (git_tree_entry_type (TreeEntry_entry e) <> GIT_OBJ_BLOB ->
     TreeEntry_blob__get__ e s = Returns None (with_error s not_a_blob)) /\
  (git_tree_entry_type (TreeEntry_entry e) = GIT_OBJ_BLOB ->
   TreeEntry_repo e = repo_NULL ->
     TreeEntry_blob__get__ e s = Returns None (with_error s no_repository)).
Proof.
  split; [|split; [|split]].
  - intros Hkind.
    pose proof (treeentry_to_subtree_not_a_tree e s Hkind) as Hsub.
    split; [exact Hsub|]. now apply through_subtree_failure.
  - intros Hkind Hrepo.
    pose proof (treeentry_to_subtree_no_repository e s Hkind Hrepo) as Hsub.
    split; [exact Hsub|]. now apply through_subtree_failure.
  - intros Hkind. unfold TreeEntry_blob__get__.
    destruct (git_tree_entry_type (TreeEntry_entry e)); try reflexivity.
    now contradiction Hkind.
  - intros Hkind Hrepo. unfold TreeEntry_blob__get__, treeentry_to_object, read_repo, bind.
    rewrite Hkind, Hrepo. reflexivity.
Qed.

End Resolution.

(** C7 as stated fails on a blob entry of a tree without repository: no
    store context is associated with it, and its subtree resolution
    raises the TypeError of the kind test, which comes first, not the
    error of the missing repository. *)
Lemma resolution_without_repository_counterexample :
  let e := entry_of Sample.orphan_tree Sample.a_txt in
  Tree_repo Sample.orphan_tree = None /\
  @git_tree_entry_type Sample.env (TreeEntry_entry e) = GIT_OBJ_BLOB /\
  @treeentry_to_subtree Sample.env e (no_error [])
    = Returns None (with_error (no_error []) not_a_tree) /\
  @treeentry_to_subtree Sample.env e (no_error [])
    <> Returns None (with_error (no_error []) no_repository).
Proof.
  cbv zeta. repeat split; try reflexivity.
  intros Heq. discriminate Heq.
Qed.

Lemma resolution_failures_witness :
  let blob := {| TreeEntry_entry := Sample.a_txt; TreeEntry_repo := repo_NULL |} in
  let dir := {| TreeEntry_entry := Sample.b_dir; TreeEntry_repo := repo_NULL |} in
  (@treeentry_to_subtree Sample.env blob (no_error [])
     = Returns None (with_error (no_error []) not_a_tree)) /\
  (@TreeEntry_truediv Sample.env dir (PyBytes "x") (no_error [])
     = Returns None (with_error (no_error []) no_repository)) /\
  (@TreeEntry_blob__get__ Sample.env dir (no_error [])
     = Returns None (with_error (no_error []) not_a_blob)) /\
  (@TreeEntry_blob__get__ Sample.env blob (no_error [])
     = Returns None (with_error (no_error []) no_repository)).
Proof.
  cbv zeta.
  split; [|split; [|split]].
  - apply (proj1 (@resolution_failures Sample.env
             {| TreeEntry_entry := Sample.a_txt; TreeEntry_repo := repo_NULL |}
             Py_None (no_error []))).
    intros Hkind. discriminate Hkind.
  - apply (proj1 (proj2 (@resolution_failures Sample.env
             {| TreeEntry_entry := Sample.b_dir; TreeEntry_repo := repo_NULL |}
             (PyBytes "x") (no_error [])))); reflexivity.
  - apply (proj1 (proj2 (proj2 (@resolution_failures Sample.env
             {| TreeEntry_entry := Sample.b_dir; TreeEntry_repo := repo_NULL |}
             Py_None (no_error []))))).
    intros Hkind. discriminate Hkind.
  - apply (proj2 (proj2 (proj2 (@resolution_failures Sample.env
             {| TreeEntry_entry := Sample.a_txt; TreeEntry_repo := repo_NULL |}
             Py_None (no_error []))))); reflexivity.
Defined.

(** ** Lookup by index *)

Section ByIndex.

Context `{Externals}.

Variable tree : git_tree.
Variable repo : option Repository.
Variable calls : list DiffCall.

Local Abbreviation len := (git_tree_entrycount tree).
Local Abbreviation s := (no_error calls).

Lemma PyInt_AsLong_fits (i : Z) :
  LONG_MIN <= i <= LONG_MAX -> PyInt_AsLong (PyLong i) s = Returns i s.
Proof.
  intros Hi. unfold PyInt_AsLong.
  destruct (Z.leb_spec LONG_MIN i); [|lia].
  destruct (Z.leb_spec i LONG_MAX); [|lia].
  reflexivity.
Qed.

Lemma PyInt_AsLong_overflow (i : Z) :
  i < LONG_MIN \/ LONG_MAX < i ->
  PyInt_AsLong (PyLong i) s
  = Returns (-1) (with_error s (Raised PyExc_OverflowError Internal)).
Proof.
  intros Hi. unfold PyInt_AsLong.
  destruct (Z.leb_spec LONG_MIN i); [|reflexivity].
  destruct (Z.leb_spec i LONG_MAX); [lia|reflexivity].
Qed.

Lemma Tree_fix_index_in_range (i : Z) :
  len <= INT_MAX -> - len <= i < len ->
  Tree_fix_index tree (PyLong i) s = Returns (if i <? 0 then len + i else i) s.
Proof.
  intros Hlen Hi.
  assert (Hlen0 : 0 <= len) by apply Nat2Z.is_nonneg.
  rewrite INT_MAX_value in Hlen.
  unfold Tree_fix_index, bind.
  rewrite PyInt_AsLong_fits by (rewrite LONG_MIN_value, LONG_MAX_value; lia).
  cbn [PyErr_Occurred s no_error err_indicator]. fold s. fold len.
  rewrite (to_long_exact len) by (rewrite LONG_MIN_value, LONG_MAX_value; lia).
  destruct (Z.geb_spec i len); [lia|].
  destruct (Z.ltb_spec i (- len)); [lia|].
  destruct (Z.ltb_spec i 0).
  - rewrite to_size_t_exact by (rewrite LONG_MAX_value; lia).
    rewrite to_long_exact by (rewrite LONG_MIN_value, LONG_MAX_value; lia).
    rewrite to_int_exact by (unfold INT_MIN; rewrite INT_MAX_value; lia).
    reflexivity.
  - rewrite to_int_exact by (unfold INT_MIN; rewrite INT_MAX_value; lia).
    reflexivity.
Qed.

Lemma Tree_fix_index_out_of_range (i : Z) :
  len <= INT_MAX -> LONG_MIN <= i <= LONG_MAX -> i < - len \/ len <= i ->
  Tree_fix_index tree (PyLong i) s
  = Returns (-1) (with_error s (Raised PyExc_IndexError (Value (PyLong i)))).
Proof.
  intros Hlen Hlong Hi.
  assert (Hlen0 : 0 <= len) by apply Nat2Z.is_nonneg.
  rewrite INT_MAX_value in Hlen.
  unfold Tree_fix_index, bind.
  rewrite PyInt_AsLong_fits by assumption.
  cbn [PyErr_Occurred s no_error err_indicator]. fold s. fold len.
  rewrite (to_long_exact len) by (rewrite LONG_MIN_value, LONG_MAX_value; lia).
  destruct (Z.geb_spec i len); [reflexivity|].
  destruct (Z.ltb_spec i (- len)); [reflexivity|lia].
Qed.

Lemma Tree_fix_index_overflow (i : Z) :
  i < LONG_MIN \/ LONG_MAX < i ->
  Tree_fix_index tree (PyLong i) s
  = Returns (-1) (with_error s (Raised PyExc_OverflowError Internal)).
Proof.
  intros Hi. unfold Tree_fix_index, bind.
  rewrite PyInt_AsLong_overflow by assumption. reflexivity.
Qed.

(** A position of the tree, duplicated and wrapped. *)
Lemma tree_getitem_at_position (i pos : Z) :
  allocation_succeeds ->
  0 <= pos < len -> pos <= LONG_MAX ->
  Tree_fix_index tree (PyLong i) s = Returns pos s ->
  exists e, nth_error tree (Z.to_nat pos) = Some e /\
            tree_getitem_by_index tree repo (PyLong i) s
            = Returns (Some {| TreeEntry_entry := e; TreeEntry_repo := wrapped_repo repo |}) s.
Proof.
  intros [Hdup Hnew] Hpos Hmax Hfix.
  destruct (nth_error tree (Z.to_nat pos)) as [e|] eqn:Hnth.
  - exists e. split; [reflexivity|].
    unfold tree_getitem_by_index, bind. rewrite Hfix.
    cbn [PyErr_Occurred s no_error err_indicator].
    rewrite to_size_t_exact by lia.
    unfold git_tree_entry_byindex.
    destruct (Z.ltb_spec pos 0); [lia|].
    rewrite Hnth, Hdup.
    unfold wrap_tree_entry, PyObject_New, bind. rewrite Hnew. reflexivity.
  - apply nth_error_None in Hnth. unfold len, git_tree_entrycount in Hpos. lia.
Qed.

(** C3, as the code has it (a tree of at most [INT_MAX] entries, memory
    available).  For an integer [i] that fits a C long: the entry at
    position [i] when [0 <= i < len], the entry at position [i + len]
    when [-len <= i < 0] (the same result as for [i + len]), IndexError
    carrying [i] when [i < -len] or [i >= len].  For an integer that does
    not fit a C long: OverflowError. *)
Theorem tree_getitem_by_index_spec (i : Z) :
  allocation_succeeds ->
  len <= INT_MAX ->
  (LONG_MIN <= i <= LONG_MAX ->
     (0 <= i < len ->
        exists e, nth_error tree (Z.to_nat i) = Some e /\
                  tree_getitem_by_index tree repo (PyLong i) s
                  = Returns (Some {| TreeEntry_entry := e; TreeEntry_repo := wrapped_repo repo |}) s) /\
     (- len <= i < 0 ->
        exists e, nth_error tree (Z.to_nat (i + len)) = Some e /\
                  tree_getitem_by_index tree repo (PyLong i) s
                  = Returns (Some {| TreeEntry_entry := e; TreeEntry_repo := wrapped_repo repo |}) s /\
                  tree_getitem_by_index tree repo (PyLong i) s
                  = tree_getitem_by_index tree repo (PyLong (i + len)) s) /\
     (i < - len \/ len <= i ->
        tree_getitem_by_index tree repo (PyLong i) s
        = Returns None (with_error s (Raised PyExc_IndexError (Value (PyLong i)))))) /\
  (i < LONG_MIN \/ LONG_MAX < i ->
     tree_getitem_by_index tree repo (PyLong i) s
     = Returns None (with_error s (Raised PyExc_OverflowError Internal))).
Proof.
  intros Halloc Hlen.
  assert (Hmax : len <= LONG_MAX)
    by (rewrite INT_MAX_value in Hlen; rewrite LONG_MAX_value; lia).
  split; [intros Hlong; split; [|split]|].
  - intros Hi.
    apply tree_getitem_at_position; [assumption|lia|lia|].
    rewrite Tree_fix_index_in_range by lia.
    destruct (Z.ltb_spec i 0); [lia|reflexivity].
  - intros Hi.
    assert (Hfix : Tree_fix_index tree (PyLong i) s = Returns (i + len) s).
    { rewrite Tree_fix_index_in_range by lia.
      destruct (Z.ltb_spec i 0); [|lia]. now rewrite Z.add_comm. }
    assert (Hfix' : Tree_fix_index tree (PyLong (i + len)) s = Returns (i + len) s).
    { rewrite Tree_fix_index_in_range by lia.
      destruct (Z.ltb_spec (i + len) 0); [lia|reflexivity]. }
    destruct (tree_getitem_at_position i (i + len) Halloc) as (e & Hnth & Hget);
      [lia|lia|exact Hfix|].
    destruct (tree_getitem_at_position (i + len) (i + len) Halloc) as (e' & Hnth' & Hget');
      [lia|lia|exact Hfix'|].
    exists e. split; [exact Hnth|]. split; [exact Hget|].
    rewrite Hget, Hget'. congruence.
  - intros Hi. unfold tree_getitem_by_index, bind.
    rewrite Tree_fix_index_out_of_range by assumption. reflexivity.
  - intros Hi. unfold tree_getitem_by_index, bind.
    rewrite Tree_fix_index_overflow by assumption. reflexivity.
Qed.

End ByIndex.

Lemma Sample_allocation_succeeds : @allocation_succeeds Sample.env.
Proof. split; intros; reflexivity. Qed.

(** C3 as stated fails on an integer beyond the C long range: the lookup
    raises OverflowError, not IndexError. *)
Lemma tree_getitem_by_index_overflow_counterexample :
  let i := 2 ^ 63 in
  git_tree_entrycount Sample.scenario <= i /\
  @tree_getitem_by_index Sample.env Sample.scenario (Some Sample.the_repo)
    (PyLong i) (no_error [])
  = Returns None (with_error (no_error []) (Raised PyExc_OverflowError Internal)) /\
  @tree_getitem_by_index Sample.env Sample.scenario (Some Sample.the_repo)
    (PyLong i) (no_error [])
  <> Returns None (with_error (no_error []) (Raised PyExc_IndexError (Value (PyLong i)))).
Proof.
  cbv zeta. split; [|split].
  - vm_compute. discriminate.
  - reflexivity.
  - intros Heq. vm_compute in Heq. discriminate Heq.
Qed.

Lemma tree_getitem_by_index_spec_witness :
  exists e,
    nth_error Sample.scenario 1 = Some e /\
    @tree_getitem_by_index Sample.env Sample.scenario (Some Sample.the_repo)
      (PyLong (-1)) (no_error [])
    = Returns (Some {| TreeEntry_entry := e; TreeEntry_repo := repo_is Sample.the_repo |})
        (no_error []) /\
    @tree_getitem_by_index Sample.env Sample.scenario (Some Sample.the_repo)
      (PyLong (-1)) (no_error [])
    = @tree_getitem_by_index Sample.env Sample.scenario (Some Sample.the_repo)
        (PyLong 1) (no_error []).
Proof.
  assert (Hlen : git_tree_entrycount Sample.scenario <= INT_MAX)
    by (vm_compute; discriminate).
  assert (Hlong : LONG_MIN <= -1 <= LONG_MAX)
    by (split; vm_compute; discriminate).
  assert (Hneg : - git_tree_entrycount Sample.scenario <= -1 < 0)
    by (split; vm_compute; [discriminate|reflexivity]).
  exact (proj1 (proj2 (proj1
           (@tree_getitem_by_index_spec Sample.env Sample.scenario
              (Some Sample.the_repo) [] (-1) Sample_allocation_succeeds Hlen)
           Hlong)) Hneg).
Defined.

(** ** Lookup by path and containment *)

Section ByPath.

Context `{Externals}.

Variable self : Tree.
Variable py_path : PyObject.
Variable s : PyState.

(** C5, as the code has it.  With the path found, containment is true
    and lookup returns the entry, or raises MemoryError when the object
    to return cannot be allocated; with a segment absent, lookup raises
    KeyError carrying the path argument and containment is false; a store
    error is raised by both alike; for a value that is no path, lookup
    raises TypeError "Value must be a path string" while containment
    passes on the exception of the path conversion.  Lookup succeeds
    exactly when containment is true and the object can be allocated. *)
Theorem contains_and_getitem_by_path :
  (forall path entry,
     path_to_c_str py_path = inr path ->
     git_tree_entry_bypath (Tree_tree self) path = lg2_ok entry ->
     Tree_contains self py_path s = Returns 1 s /\
     (allocates TreeEntryType = true ->
      tree_getitem_by_path (Tree_tree self) (Tree_repo self) py_path s
      = Returns (Some {| TreeEntry_entry := entry;
                         TreeEntry_repo := wrapped_repo (Tree_repo self) |}) s) /\
     (allocates TreeEntryType = false ->
      tree_getitem_by_path (Tree_tree self) (Tree_repo self) py_path s
      = Returns None (with_error s (Raised PyExc_MemoryError Internal)))) /\
  (forall path,
     path_to_c_str py_path = inr path ->
     git_tree_entry_bypath (Tree_tree self) path = lg2_error GIT_ENOTFOUND ->
     tree_getitem_by_path (Tree_tree self) (Tree_repo self) py_path s
     = Returns None (with_error s (Raised PyExc_KeyError (Value py_path))) /\
     Tree_contains self py_path s = Returns 0 s) /\
  (forall path err,
     path_to_c_str py_path = inr path ->
     git_tree_entry_bypath (Tree_tree self) path = lg2_error err ->
     err < 0 -> err <> GIT_ENOTFOUND ->
     tree_getitem_by_path (Tree_tree self) (Tree_repo self) py_path s
     = Returns None (with_error s (git_error err)) /\
     Tree_contains self py_path s = Returns (-1) (with_error s (git_error err))) /\
  (forall e,
     path_to_c_str py_path = inl e ->
     tree_getitem_by_path (Tree_tree self) (Tree_repo self) py_path s
     = Returns None
         (with_error s (Raised PyExc_TypeError (Text "Value must be a path string"))) /\
     Tree_contains self py_path s = Returns (-1) (with_error s e)) /\
  ((exists entry s',
      tree_getitem_by_path (Tree_tree self) (Tree_repo self) py_path s
      = Returns (Some entry) s') <->
   ((exists s', Tree_contains self py_path s = Returns 1 s') /\
    allocates TreeEntryType = true)).
Proof.
  unfold tree_getitem_by_path, Tree_contains, py_path_to_c_str, wrap_tree_entry,
    PyObject_New, bind.
  split; [|split; [|split; [|split]]].
  - intros path entry Hpath Hfound. rewrite Hpath. cbn. rewrite Hfound.
    split; [reflexivity|]. split; intros ->; reflexivity.
  - intros path Hpath Habsent. rewrite Hpath. cbn. rewrite Habsent.
    split; reflexivity.
  - intros path err Hpath Herr Hneg Hother. rewrite Hpath. cbn. rewrite Herr.
    destruct (Z.eqb_spec err GIT_ENOTFOUND); [contradiction|].
    destruct (Z.ltb_spec err 0); [|lia].
    split; reflexivity.
  - intros e Hpath. rewrite Hpath. split; reflexivity.
  - destruct (path_to_c_str py_path) as [e|path]; cbn.
    + split.
      * intros (entry & s' & Hg). discriminate Hg.
      * intros [[s' Hc] _]. discriminate Hc.
    + destruct (git_tree_entry_bypath (Tree_tree self) path) as [entry|err].
      * destruct (allocates TreeEntryType); cbn; split.
        -- intros _. split; [exists s|]; reflexivity.
        -- intros _. eexists _, s. reflexivity.
        -- intros (found & s' & Hg). discriminate Hg.
        -- intros [_ Hfalse]. discriminate Hfalse.
      * destruct (Z.eqb_spec err GIT_ENOTFOUND).
        { split.
          - intros (entry & s' & Hg). discriminate Hg.
          - intros [[s' Hc] _]. discriminate Hc. }
        destruct (Z.ltb_spec err 0).
        { split.
          - intros (entry & s' & Hg). discriminate Hg.
          - intros [[s' Hc] _]. discriminate Hc. }
        split.
        { intros (entry & s' & Hg). discriminate Hg. }
        { intros [[s' Hc] _]. discriminate Hc. }
Qed.

End ByPath.

(** C5 as stated fails on a value that is no path: containment passes on
    the exception of the path conversion, lookup replaces it by its own
    TypeError, and the two pending exceptions differ. *)
Lemma malformed_path_counterexample :
  @Tree_contains Sample.env Sample.scenario_tree Py_None (no_error [])
  = Returns (-1) (with_error (no_error []) (Raised PyExc_TypeError Internal)) /\
  @tree_getitem_by_path Sample.env Sample.scenario (Some Sample.the_repo) Py_None
    (no_error [])
  = Returns None
      (with_error (no_error [])
         (Raised PyExc_TypeError (Text "Value must be a path string"))) /\
  Raised PyExc_TypeError Internal
  <> Raised PyExc_TypeError (Text "Value must be a path string").
Proof.
  repeat split; try reflexivity. intros Heq. discriminate Heq.
Qed.

Lemma contains_and_getitem_by_path_witness :
  (@Tree_contains Sample.env Sample.scenario_tree (PyUnicode "a.txt") (no_error [])
   = Returns 1 (no_error []) /\
   @tree_getitem_by_path Sample.env Sample.scenario (Some Sample.the_repo)
     (PyUnicode "a.txt") (no_error [])
   = Returns (Some {| TreeEntry_entry := Sample.a_txt;
                      TreeEntry_repo := repo_is Sample.the_repo |}) (no_error [])) /\
  (* out of memory: containment is true, lookup raises MemoryError *)
  (@Tree_contains Sample.exhausted Sample.scenario_tree (PyUnicode "a.txt") (no_error [])
   = Returns 1 (no_error []) /\
   @tree_getitem_by_path Sample.exhausted Sample.scenario (Some Sample.the_repo)
     (PyUnicode "a.txt") (no_error [])
   = Returns None (with_error (no_error []) (Raised PyExc_MemoryError Internal))) /\
  (@tree_getitem_by_path Sample.env Sample.scenario (Some Sample.the_repo)
     (PyUnicode "b/missing") (no_error [])
   = Returns None
       (with_error (no_error []) (Raised PyExc_KeyError (Value (PyUnicode "b/missing")))) /\
   @Tree_contains Sample.env Sample.scenario_tree (PyUnicode "b/missing") (no_error [])
   = Returns 0 (no_error [])).
Proof.
  split; [|split].
  - destruct (proj1 (@contains_and_getitem_by_path Sample.env Sample.scenario_tree
                       (PyUnicode "a.txt") (no_error []))
                "a.txt"%string Sample.a_txt eq_refl eq_refl) as (Hin & Hgot & _).
    split; [exact Hin|exact (Hgot eq_refl)].
  - destruct (proj1 (@contains_and_getitem_by_path Sample.exhausted Sample.scenario_tree
                       (PyUnicode "a.txt") (no_error []))
                "a.txt"%string Sample.a_txt eq_refl eq_refl) as (Hin & _ & Hfailed).
    split; [exact Hin|exact (Hfailed eq_refl)].
  - apply (proj1 (proj2 (@contains_and_getitem_by_path Sample.env Sample.scenario_tree
                    (PyUnicode "b/missing") (no_error [])))
             "b/missing"%string); reflexivity.
Defined.

(** ** Iteration *)

Section Iteration.

Context `{Externals}.

Variable T : Tree.
Variable s : PyState.

Lemma git_tree_entry_byindex_nat (tree : git_tree) (k : nat) :
  git_tree_entry_byindex tree (Z.of_nat k) = nth_error tree k.
Proof.
  unfold git_tree_entry_byindex.
  destruct (Z.ltb_spec (Z.of_nat k) 0); [lia|]. now rewrite Nat2Z.id.
Qed.

Lemma TreeIter_iternext_end (it : TreeIter) :
  git_tree_entry_byindex (Tree_tree (TreeIter_owner it)) (TreeIter_i it) = None ->
  TreeIter_iternext it s = Returns (None, it) s.
Proof.
  intros Hend. unfold TreeIter_iternext. rewrite Hend. reflexivity.
Qed.

Lemma TreeIter_iternext_yield (k : nat) (e : git_tree_entry) :
  allocation_succeeds ->
  nth_error (Tree_tree T) k = Some e ->
  TreeIter_iternext (iterator_at T (Z.of_nat k)) s
  = Returns (Some (entry_of T e), iterator_at T (Z.of_nat (S k))) s.
Proof.
  intros [Hdup Hnew] Hnth.
  unfold TreeIter_iternext, iterator_at, entry_of.
  cbn [TreeIter_owner TreeIter_i].
  rewrite git_tree_entry_byindex_nat, Hnth, Hdup.
  unfold wrap_tree_entry, PyObject_New, bind. rewrite Hnew.
  rewrite Nat2Z.inj_succ, <- Z.add_1_r. reflexivity.
Qed.

Lemma TreeIter_iternext_past (k : nat) :
  nth_error (Tree_tree T) k = None ->
  TreeIter_iternext (iterator_at T (Z.of_nat k)) s
  = Returns (None, iterator_at T (Z.of_nat k)) s.
Proof.
  intros Hnth. apply TreeIter_iternext_end.
  cbn [iterator_at TreeIter_owner TreeIter_i].
  now rewrite git_tree_entry_byindex_nat.
Qed.

Lemma skipn_nth_error_Some {A} (l : list A) (k : nat) (a : A) :
  nth_error l k = Some a -> skipn k l = a :: skipn (S k) l.
Proof.
  revert l. induction k as [|k IH]; intros [|x l] Hnth; try discriminate.
  - injection Hnth as ->. reflexivity.
  - cbn in Hnth. apply IH in Hnth. exact Hnth.
Qed.

Lemma skipn_nth_error_None {A} (l : list A) (k : nat) :
  nth_error l k = None -> skipn k l = [].
Proof.
  intros Hnth. apply skipn_all2. now apply nth_error_None.
Qed.

(** Collecting from position [k] yields the entries from [k] on and
    ends with the cursor at the entry count. *)
Lemma collect_from (n k : nat) :
  allocation_succeeds ->
  (List.length (Tree_tree T) - k < n)%nat ->
  (k <= List.length (Tree_tree T))%nat ->
  collect n (iterator_at T (Z.of_nat k)) s
  = Returns (map (entry_of T) (skipn k (Tree_tree T)), true,
             iterator_at T (git_tree_entrycount (Tree_tree T))) s.
Proof.
  intros Halloc. revert k.
  induction n as [|n IH]; intros k Hfuel Hk; [lia|].
  cbn [collect]. unfold bind.
  destruct (nth_error (Tree_tree T) k) as [e|] eqn:Hnth.
  - rewrite (TreeIter_iternext_yield k e Halloc Hnth).
    assert (Hlt : (k < List.length (Tree_tree T))%nat)
      by (apply nth_error_Some; congruence).
    rewrite IH by lia.
    rewrite (skipn_nth_error_Some _ _ _ Hnth). reflexivity.
  - rewrite (TreeIter_iternext_past k Hnth).
    rewrite (skipn_nth_error_None _ _ Hnth).
    apply nth_error_None in Hnth. unfold git_tree_entrycount.
    replace k with (List.length (Tree_tree T)) by lia. reflexivity.
Qed.

(** Two iterators of [T], wherever they stand and however their steps
    interleave, each yield the entries that follow their own position. *)
Lemma interleave_from (schedule : list bool) (k1 k2 : nat) :
  allocation_succeeds ->
  interleave schedule (iterator_at T (Z.of_nat k1)) (iterator_at T (Z.of_nat k2)) s
  = Returns
      (firstn (steps_of true schedule) (map (entry_of T) (skipn k1 (Tree_tree T))),
       firstn (steps_of false schedule) (map (entry_of T) (skipn k2 (Tree_tree T)))) s.
Proof.
  intros Halloc. revert k1 k2.
  induction schedule as [|[|] schedule IH]; intros k1 k2.
  - reflexivity.
  - cbn [interleave]. unfold bind.
    change (steps_of true (true :: schedule)) with (S (steps_of true schedule)).
    change (steps_of false (true :: schedule)) with (steps_of false schedule).
    destruct (nth_error (Tree_tree T) k1) as [e|] eqn:Hnth.
    + rewrite (TreeIter_iternext_yield k1 e Halloc Hnth). cbn [fst snd].
      rewrite IH. rewrite (skipn_nth_error_Some _ _ _ Hnth). reflexivity.
    + rewrite (TreeIter_iternext_past k1 Hnth). cbn [fst snd]. rewrite IH.
      rewrite (skipn_nth_error_None _ _ Hnth). cbn [map]. now rewrite !firstn_nil.
  - cbn [interleave]. unfold bind.
    change (steps_of true (false :: schedule)) with (steps_of true schedule).
    change (steps_of false (false :: schedule)) with (S (steps_of false schedule)).
    destruct (nth_error (Tree_tree T) k2) as [e|] eqn:Hnth.
    + rewrite (TreeIter_iternext_yield k2 e Halloc Hnth). cbn [fst snd].
      rewrite IH. rewrite (skipn_nth_error_Some _ _ _ Hnth). reflexivity.
    + rewrite (TreeIter_iternext_past k2 Hnth). cbn [fst snd]. rewrite IH.
      rewrite (skipn_nth_error_None _ _ Hnth). cbn [map]. now rewrite !firstn_nil.
Qed.

End Iteration.

Section IterationClaims.

Context `{Externals}.

(** C4: [iter()] returns an iterator at position 0; a consumer that
    calls [next] until NULL obtains, for every tree [T], exactly the
    entries of [T] in the order of [T]'s entry sequence (so in canonical
    order when the sequence is), as many as [T] has, and the final NULL
    comes without an exception: the end of the sequence, not an error.
    Two iterators over [T], stepped in any interleaving, each yield the
    same sequence. *)
Theorem Tree_iteration (T : Tree) (calls : list DiffCall) :
  allocation_succeeds ->
  let s := no_error calls in
  let yielded := map (entry_of T) (Tree_tree T) in
  Tree_iter T s = Returns (Some (iterator_at T 0)) s /\
  (forall n, (List.length (Tree_tree T) < n)%nat ->
             collect n (iterator_at T 0) s
             = Returns (yielded, true,
                        iterator_at T (git_tree_entrycount (Tree_tree T))) s) /\
  Z.of_nat (List.length yielded) = git_tree_entrycount (Tree_tree T) /\
  (git_tree_entrycount (Tree_tree T) <= LONG_MAX ->
   Z.of_nat (List.length yielded) = Tree_len T) /\
  map TreeEntry_entry yielded = Tree_tree T /\
  (canonically_ordered (Tree_tree T) ->
   canonically_ordered (map TreeEntry_entry yielded)) /\
  (forall schedule,
     interleave schedule (iterator_at T 0) (iterator_at T 0) s
     = Returns (firstn (steps_of true schedule) yielded,
                firstn (steps_of false schedule) yielded) s).
Proof.
  intros Halloc s yielded.
  assert (Hentries : map TreeEntry_entry yielded = Tree_tree T).
  { unfold yielded, entry_of. rewrite map_map. cbn [TreeEntry_entry]. apply map_id. }
  assert (Hcount : Z.of_nat (List.length yielded) = git_tree_entrycount (Tree_tree T)).
  { unfold yielded, git_tree_entrycount. now rewrite length_map. }
  split; [|split; [|split; [|split; [|split; [|split]]]]].
  - unfold Tree_iter, PyObject_New, bind. rewrite (proj2 Halloc). reflexivity.
  - intros n Hn.
    exact (collect_from T s n 0 Halloc ltac:(lia) ltac:(lia)).
  - exact Hcount.
  - intros Hmax. rewrite Hcount. unfold Tree_len.
    rewrite to_long_exact; [reflexivity|].
    split; [|exact Hmax].
    pose proof (Nat2Z.is_nonneg (List.length (Tree_tree T))) as Hnn.
    unfold git_tree_entrycount. rewrite LONG_MIN_value. lia.
  - exact Hentries.
  - intros Hsorted. now rewrite Hentries.
  - intros schedule. exact (interleave_from T s schedule 0 0 Halloc).
Qed.

(** C10: the cursor advances only when an entry was read at its
    position, and then by one; with the cursor at the entry count [next]
    returns NULL without exception and leaves the iterator as it is; and
    once [next] has returned NULL without exception, the iterator is
    unchanged and every later [next] does the same. *)
Theorem TreeIter_exhaustion_stable (it : TreeIter) (calls : list DiffCall) :
  let s := no_error calls in
  let tree := Tree_tree (TreeIter_owner it) in
  (forall r it' s',
     TreeIter_iternext it s = Returns (r, it') s' ->
     (git_tree_entry_byindex tree (TreeIter_i it) = None /\
      r = None /\ it' = it /\ s' = s) \/
     (exists e, git_tree_entry_byindex tree (TreeIter_i it) = Some e /\
                TreeIter_owner it' = TreeIter_owner it /\
                TreeIter_i it' = TreeIter_i it + 1)) /\
  (TreeIter_i it = git_tree_entrycount tree ->
   TreeIter_iternext it s = Returns (None, it) s) /\
  (forall it' calls',
     TreeIter_iternext it s = Returns (None, it') (no_error calls') ->
     it' = it /\ calls' = calls /\
     forall n, next_times n it' s = Returns (repeat None n, it') s).
Proof.
  intros s tree.
  assert (Hstep : forall r it' s',
     TreeIter_iternext it s = Returns (r, it') s' ->
     (git_tree_entry_byindex tree (TreeIter_i it) = None /\
      r = None /\ it' = it /\ s' = s) \/
     (exists e, git_tree_entry_byindex tree (TreeIter_i it) = Some e /\
                TreeIter_owner it' = TreeIter_owner it /\
                TreeIter_i it' = TreeIter_i it + 1 /\
                (r = None -> err_indicator s' <> None))).
  { intros r it' s'. unfold TreeIter_iternext. fold tree.
    destruct (git_tree_entry_byindex tree (TreeIter_i it)) as [e|].
    - intros Hrun. right. exists e. split; [reflexivity|].
      destruct (git_tree_entry_dup e) as [entry|err].
      + unfold wrap_tree_entry, PyObject_New, bind in Hrun.
        destruct (allocates TreeEntryType); cbn in Hrun;
          injection Hrun as <- <- <-; repeat split; try discriminate.
      + destruct (err <? 0); [|discriminate Hrun].
        cbn in Hrun. injection Hrun as <- <- <-. repeat split. discriminate.
    - intros Hrun. left. injection Hrun as <- <- <-. repeat split. }
  assert (Hend : forall n,
     git_tree_entry_byindex tree (TreeIter_i it) = None ->
     next_times n it s = Returns (repeat None n, it) s).
  { intros n Hnone. induction n as [|n IH]; [reflexivity|].
    cbn [next_times]. unfold bind.
    rewrite (TreeIter_iternext_end s it Hnone). cbn [fst snd].
    rewrite IH. reflexivity. }
  split; [|split].
  - intros r it' s' Hrun.
    destruct (Hstep r it' s' Hrun) as [Hnone|(e & He & Howner & Hi & _)].
    + left. exact Hnone.
    + right. exists e. repeat split; assumption.
  - intros Hi. apply TreeIter_iternext_end. fold tree. rewrite Hi.
    unfold git_tree_entrycount. rewrite git_tree_entry_byindex_nat.
    apply nth_error_None. lia.
  - intros it' calls' Hrun.
    destruct (Hstep None it' (no_error calls') Hrun)
      as [(Hnone & _ & -> & Hs)|(e & _ & _ & _ & Herr)].
    + split; [reflexivity|]. split.
      * unfold s, no_error in Hs. now injection Hs.
      * intros n. now apply Hend.
    + exfalso. now apply Herr.
Qed.

End IterationClaims.

Lemma Tree_iteration_witness :
  @collect Sample.env 3 (iterator_at Sample.scenario_tree 0) (no_error [])
  = Returns
      ([ {| TreeEntry_entry := Sample.a_txt; TreeEntry_repo := repo_is Sample.the_repo |};
         {| TreeEntry_entry := Sample.b_dir; TreeEntry_repo := repo_is Sample.the_repo |} ],
       true, iterator_at Sample.scenario_tree 2)
      (no_error []).
Proof.
  apply (proj1 (proj2 (@Tree_iteration Sample.env Sample.scenario_tree []
                         Sample_allocation_succeeds)) 3%nat).
  cbn. lia.
Defined.

Lemma TreeIter_exhaustion_stable_witness :
  let done := {| TreeIter_owner := Sample.scenario_tree; TreeIter_i := 2 |} in
  TreeIter_i done = git_tree_entrycount (Tree_tree (TreeIter_owner done)) /\
  @TreeIter_iternext Sample.env done (no_error []) = Returns (None, done) (no_error []) /\
  @next_times Sample.env 3 done (no_error [])
  = Returns ([None; None; None], done) (no_error []).
Proof.
  cbv zeta. split; [reflexivity|]. split.
  - apply (proj1 (proj2 (@TreeIter_exhaustion_stable Sample.env
             {| TreeIter_owner := Sample.scenario_tree; TreeIter_i := 2 |} []))).
    reflexivity.
  - apply (proj2 (proj2 (@TreeIter_exhaustion_stable Sample.env
             {| TreeIter_owner := Sample.scenario_tree; TreeIter_i := 2 |} []))
             {| TreeIter_owner := Sample.scenario_tree; TreeIter_i := 2 |} []).
    reflexivity.
Defined.

(** ** The diff entry points *)

Section Diff.

Context `{Externals}.

Variable self : Tree.
Variable s : PyState.

(** Without repository, a diff whose arguments are accepted ends in the
    read of [py_repo->repo] through NULL; no request reaches the engine
    and no exception is raised. *)
Lemma diff_without_repository (args : list PyObject) (kwds : list (string * PyObject)) :
  Tree_repo self = None ->
  (forall opts,
     parse_workdir_args args GIT_DIFF_OPTIONS_INIT = inr opts ->
     Tree_diff_to_workdir self args s = Crash NullDereference) /\
  (forall py_idx opts py_idx_ptr buffer,
     parse_index_args args GIT_DIFF_OPTIONS_INIT = inr (py_idx, opts) ->
     getattr py_idx "_index" <> None ->
     getattr py_idx "_pointer" = Some py_idx_ptr ->
     py_idx_ptr = PyBytes buffer ->
     Z.of_nat (String.length buffer) = sizeof_pointer ->
     Tree_diff_to_index self args kwds s = Crash NullDereference) /\
  (forall parsed,
     parse_tree_args args kwds GIT_DIFF_OPTIONS_INIT 0 = inr parsed ->
     Tree_diff_to_tree self args kwds s = Crash NullDereference).
Proof.
  intros Hrepo. split; [|split].
  - intros opts Hparse. unfold Tree_diff_to_workdir, bind.
    rewrite Hparse, Hrepo. reflexivity.
  - intros py_idx opts py_idx_ptr buffer Hparse Hindex Hpointer -> Hsize.
    unfold Tree_diff_to_index, PyObject_GetAttrString, bind.
    rewrite Hparse. cbn [PyArg_Parse ret].
    destruct (getattr py_idx "_index"); [|contradiction].
    cbn [ret]. rewrite Hpointer. cbn [ret PyBytes_AsStringAndSize].
    rewrite Hsize, Z.eqb_refl, Hrepo. reflexivity.
  - intros [[py_tree opts] swap] Hparse. unfold Tree_diff_to_tree, bind.
    rewrite Hparse, Hrepo. cbn [PyArg_Parse ret].
    destruct (swap >? 0); reflexivity.
Qed.

(** C6: with the arguments parsed into [py_tree], [opts] and [swap], one
    request is made to the engine.  Its operands are [self] and the other
    tree, exchanged when [swap > 0]; the Diff returned is the engine's
    answer to that request, as it is.  An omitted tree is the NULL
    operand, which the engine takes for the empty tree. *)
Theorem Tree_diff_to_tree_operands (py_repo : Repository)
  (args : list PyObject) (kwds : list (string * PyObject))
  (py_tree : option Tree) (opts : git_diff_options) (swap : Z) :
  Tree_repo self = Some py_repo ->
  parse_tree_args args kwds GIT_DIFF_OPTIONS_INIT 0 = inr (py_tree, opts, swap) ->
  let other := option_map Tree_tree py_tree in
  let from := if 0 <? swap then other else Some (Tree_tree self) in
  let to := if 0 <? swap then Some (Tree_tree self) else other in
  let call := diff_tree_to_tree (Repository_repo py_repo) from to opts in
  (argument args kwds 0 "obj" = None -> other = None) /\
  (forall diff,
     git_diff_tree_to_tree (Repository_repo py_repo) from to opts = lg2_ok diff ->
     Tree_diff_to_tree self args kwds s
     = Returns (Some (PyDiffObject diff py_repo)) (after_request s call)) /\
  (forall err,
     git_diff_tree_to_tree (Repository_repo py_repo) from to opts = lg2_error err ->
     err < 0 ->
     Tree_diff_to_tree self args kwds s
     = Returns None (with_error (after_request s call) (git_error err))).
Proof.
  intros Hrepo Hparse other from to call.
  split; [|split].
  - intros Homitted. unfold parse_tree_args in Hparse.
    destruct (5 <? List.length args + List.length kwds)%nat; [discriminate|].
    rewrite Homitted in Hparse. cbn [optional] in Hparse.
    destruct (parse_IHH _ _ _ _); [discriminate|].
    destruct (optional convert_i _ _); [discriminate|].
    destruct (forallb _ _); [|discriminate].
    injection Hparse as <- _ _. reflexivity.
  - intros diff Hdiff. unfold Tree_diff_to_tree, bind.
    rewrite Hparse, Hrepo. cbn [PyArg_Parse ret].
    subst call from to other. rewrite Z.gtb_ltb.
    destruct (0 <? swap); destruct py_tree; cbn [option_map] in *;
      cbn [request]; rewrite Hdiff; reflexivity.
  - intros err Hdiff Herr. unfold Tree_diff_to_tree, bind.
    rewrite Hparse, Hrepo. cbn [PyArg_Parse ret].
    subst call from to other. rewrite Z.gtb_ltb.
    destruct (0 <? swap); destruct py_tree; cbn [option_map] in *;
      cbn [request]; rewrite Hdiff; cbn [diff_result];
      (destruct (Z.ltb_spec err 0); [reflexivity|lia]).
Qed.

(** C8, as the code has it: the value given for the index is tested for
    two attributes.  Without an attribute [_index] the call fails with
    TypeError "argument must be an Index"; with it but without
    [_pointer], with AttributeError; with a [_pointer] that is no byte
    string, with TypeError; with one that has not the size of a pointer,
    with TypeError "passed value is not a pointer".  In each of these
    cases no request is made to the engine.  A value that passes the
    tests is handed to the engine, whatever its class: the request
    carries the pointer read from its bytes. *)
Theorem Tree_diff_to_index_validation (args : list PyObject)
  (kwds : list (string * PyObject)) (py_idx : PyObject) (opts : git_diff_options) :
  parse_index_args args GIT_DIFF_OPTIONS_INIT = inr (py_idx, opts) ->
  (getattr py_idx "_index" = None ->
     Tree_diff_to_index self args kwds s
     = Returns None
         (with_error s (Raised PyExc_TypeError (Text "argument must be an Index")))) /\
  (getattr py_idx "_index" <> None ->
   getattr py_idx "_pointer" = None ->
     Tree_diff_to_index self args kwds s
     = Returns None (with_error s (Raised PyExc_AttributeError Internal))) /\
  (forall py_idx_ptr,
     getattr py_idx "_index" <> None ->
     getattr py_idx "_pointer" = Some py_idx_ptr ->
     (forall buffer, py_idx_ptr <> PyBytes buffer) ->
     Tree_diff_to_index self args kwds s
     = Returns None (with_error s (Raised PyExc_TypeError Internal))) /\
  (forall buffer,
     getattr py_idx "_index" <> None ->
     getattr py_idx "_pointer" = Some (PyBytes buffer) ->
     Z.of_nat (String.length buffer) <> sizeof_pointer ->
     Tree_diff_to_index self args kwds s
     = Returns None
         (with_error s (Raised PyExc_TypeError (Text "passed value is not a pointer")))) /\
  (forall buffer py_repo diff,
     getattr py_idx "_index" <> None ->
     getattr py_idx "_pointer" = Some (PyBytes buffer) ->
     Z.of_nat (String.length buffer) = sizeof_pointer ->
     Tree_repo self = Some py_repo ->
     git_diff_tree_to_index (Repository_repo py_repo) (Tree_tree self) buffer opts
     = lg2_ok diff ->
     Tree_diff_to_index self args kwds s
     = Returns (Some (PyDiffObject diff py_repo))
         (after_request s
            (diff_tree_to_index (Repository_repo py_repo) (Tree_tree self) buffer opts))).
Proof.
  intros Hparse.
  unfold Tree_diff_to_index, PyObject_GetAttrString, bind.
  rewrite Hparse. cbn [PyArg_Parse ret].
  split; [|split; [|split; [|split]]].
  - intros Hindex. rewrite Hindex. reflexivity.
  - intros Hindex Hpointer.
    destruct (getattr py_idx "_index"); [|contradiction].
    cbn [ret]. rewrite Hpointer. reflexivity.
  - intros py_idx_ptr Hindex Hpointer Hbytes.
    destruct (getattr py_idx "_index"); [|contradiction].
    cbn [ret]. rewrite Hpointer. cbn [ret].
    destruct py_idx_ptr as [ | | | |buffer| | | | | | ]; try reflexivity.
    now contradiction (Hbytes buffer).
  - intros buffer Hindex Hpointer Hsize.
    destruct (getattr py_idx "_index"); [|contradiction].
    cbn [ret]. rewrite Hpointer. cbn [ret PyBytes_AsStringAndSize].
    destruct (Z.eqb_spec (Z.of_nat (String.length buffer)) sizeof_pointer);
      [contradiction|reflexivity].
  - intros buffer py_repo diff Hindex Hpointer Hsize Hrepo Hdiff.
    destruct (getattr py_idx "_index"); [|contradiction].
    cbn [ret]. rewrite Hpointer. cbn [ret PyBytes_AsStringAndSize].
    rewrite Hsize, Z.eqb_refl, Hrepo. cbn [negb request].
    rewrite Hdiff. reflexivity.
Qed.

End Diff.

(** C2: on a Tree without repository each of the three diff entry points
    ends in a read through the NULL repository pointer.  No ValueError
    (or other exception) is raised as the entry's resolution does. *)
Theorem diff_without_repository_crashes :
  Tree_repo Sample.orphan_tree = None /\
  @Tree_diff_to_workdir Sample.env Sample.orphan_tree [] (no_error [])
  = Crash NullDereference /\
  @Tree_diff_to_index Sample.env Sample.orphan_tree [Sample.an_index] [] (no_error [])
  = Crash NullDereference /\
  @Tree_diff_to_tree Sample.env Sample.orphan_tree [] [] (no_error [])
  = Crash NullDereference /\
  @Tree_diff_to_tree Sample.env Sample.orphan_tree
    [PyTreeObject Sample.scenario_tree] [] (no_error [])
  = Crash NullDereference.
Proof. repeat split; reflexivity. Qed.

Lemma Tree_diff_to_tree_operands_witness :
  (* the other tree given, swap=True: the other tree is the first operand *)
  @Tree_diff_to_tree Sample.env Sample.scenario_tree
    [PyTreeObject {| Tree_tree := [Sample.a_txt]; Tree_repo := Some Sample.the_repo |}]
    [("swap", Py_Bool true)] (no_error [])
  = Returns (Some (PyDiffObject 3%nat Sample.the_repo))
      (after_request (no_error [])
         (diff_tree_to_tree 7%nat (Some [Sample.a_txt]) (Some Sample.scenario)
            {| flags := 0; context_lines := 3; interhunk_lines := 0 |})) /\
  (* the other tree omitted: the second operand is NULL *)
  @Tree_diff_to_tree Sample.env Sample.scenario_tree [] [] (no_error [])
  = Returns (Some (PyDiffObject 3%nat Sample.the_repo))
      (after_request (no_error [])
         (diff_tree_to_tree 7%nat (Some Sample.scenario) None
            {| flags := 0; context_lines := 3; interhunk_lines := 0 |})).
Proof.
  split.
  - apply (proj1 (proj2 (@Tree_diff_to_tree_operands Sample.env Sample.scenario_tree
             (no_error []) Sample.the_repo
             [PyTreeObject {| Tree_tree := [Sample.a_txt];
                              Tree_repo := Some Sample.the_repo |}]
             [("swap", Py_Bool true)]
             (Some {| Tree_tree := [Sample.a_txt]; Tree_repo := Some Sample.the_repo |})
             {| flags := 0; context_lines := 3; interhunk_lines := 0 |} 1
             eq_refl eq_refl))).
    reflexivity.
  - apply (proj1 (proj2 (@Tree_diff_to_tree_operands Sample.env Sample.scenario_tree
             (no_error []) Sample.the_repo [] [] None
             {| flags := 0; context_lines := 3; interhunk_lines := 0 |} 0
             eq_refl eq_refl))).
    reflexivity.
Defined.

(** C8 as stated fails on an object that is no Index and carries the two
    attributes: it passes the test, and the engine is asked for a diff
    against the pointer read from its bytes. *)
Lemma Tree_diff_to_index_impostor_counterexample :
  is_Index Sample.an_impostor = false /\
  @Tree_diff_to_index Sample.env Sample.scenario_tree [Sample.an_impostor] []
    (no_error [])
  = Returns (Some (PyDiffObject 2%nat Sample.the_repo))
      (after_request (no_error [])
         (diff_tree_to_index 7%nat Sample.scenario "AAAAAAAA"
            {| flags := 0; context_lines := 3; interhunk_lines := 0 |})).
Proof. split; reflexivity. Qed.

Lemma Tree_diff_to_index_validation_witness :
  @Tree_diff_to_index Sample.env Sample.scenario_tree [PyLong 5] [] (no_error [])
  = Returns None
      (with_error (no_error [])
         (Raised PyExc_TypeError (Text "argument must be an Index"))) /\
  @Tree_diff_to_index Sample.env Sample.scenario_tree
    [PyInstance "Index" [("_index", Py_None); ("_pointer", PyBytes "short")]] []
    (no_error [])
  = Returns None
      (with_error (no_error [])
         (Raised PyExc_TypeError (Text "passed value is not a pointer"))).
Proof.
  split.
  - apply (proj1 (@Tree_diff_to_index_validation Sample.env Sample.scenario_tree
             (no_error []) [PyLong 5] [] (PyLong 5)
             {| flags := 0; context_lines := 3; interhunk_lines := 0 |} eq_refl)).
    reflexivity.
  - apply (proj1 (proj2 (proj2 (proj2 (@Tree_diff_to_index_validation Sample.env
             Sample.scenario_tree (no_error [])
             [PyInstance "Index" [("_index", Py_None); ("_pointer", PyBytes "short")]] []
             (PyInstance "Index" [("_index", Py_None); ("_pointer", PyBytes "short")])
             {| flags := 0; context_lines := 3; interhunk_lines := 0 |} eq_refl))))
             "short"%string).
    + discriminate.
    + reflexivity.
    + vm_compute. discriminate.
Defined.

(** ** The scenarios of the design document, run on the sample *)

Example scenario_len : Tree_len Sample.scenario_tree = 2.
Proof. reflexivity. Qed.

Example scenario_first_and_last :
  @Tree_getitem Sample.env Sample.scenario_tree (PyLong 0) (no_error [])
  = Returns (Some (entry_of Sample.scenario_tree Sample.a_txt)) (no_error []) /\
  @Tree_getitem Sample.env Sample.scenario_tree (PyLong (-1)) (no_error [])
  = Returns (Some (entry_of Sample.scenario_tree Sample.b_dir)) (no_error []).
Proof. split; reflexivity. Qed.

Example scenario_missing_path :
  @Tree_getitem Sample.env Sample.scenario_tree (PyUnicode "b/missing") (no_error [])
  = Returns None
      (with_error (no_error []) (Raised PyExc_KeyError (Value (PyUnicode "b/missing")))).
Proof. reflexivity. Qed.

Example scenario_index_len :
  @Tree_getitem Sample.env Sample.scenario_tree (PyLong 2) (no_error [])
  = Returns None (with_error (no_error []) (Raised PyExc_IndexError (Value (PyLong 2)))).
Proof. reflexivity. Qed.

Example empty_tree :
  let empty := {| Tree_tree := []; Tree_repo := Some Sample.the_repo |} in
  Tree_len empty = 0 /\
  @collect Sample.env 1 (iterator_at empty 0) (no_error [])
  = Returns ([], true, iterator_at empty 0) (no_error []) /\
  @Tree_contains Sample.env empty (PyUnicode "x") (no_error []) = Returns 0 (no_error []).
Proof. repeat split; reflexivity. Qed.

Example scenario_canonically_ordered : @canonically_ordered Sample.env Sample.scenario.
Proof.
  unfold canonically_ordered, Sample.scenario.
  repeat constructor.
Qed.

(** "lib" (file) sorts before "lib.c", which sorts before "lib" (tree). *)
Example file_before_directory :
  let file name := {| attr := Sample.S_IFREG_644; filename := name; oid := Sample.zero_oid |} in
  let dir name := {| attr := Sample.S_IFDIR; filename := name; oid := Sample.zero_oid |} in
  Sample.entry_cmp (file "lib") (file "lib.c") = -1 /\
  Sample.entry_cmp (file "lib.c") (dir "lib") = -1 /\
  Sample.entry_cmp (file "lib") (dir "lib") = -1.
Proof. repeat split; reflexivity. Qed.

(** * Further properties of the code *)

(** ** The index conversion *)

Section FixIndex.

Variable tree : git_tree.
Variable calls : list DiffCall.

(** Once the integer is converted, [Tree_fix_index] either rejects it
    with IndexError on the object given, or returns its position. *)
Lemma Tree_fix_index_converted (py_index : PyObject) (i : Z) :
  git_tree_entrycount tree <= INT_MAX ->
  LONG_MIN <= i <= LONG_MAX ->
  PyInt_AsLong py_index (no_error calls) = Returns i (no_error calls) ->
  (- git_tree_entrycount tree <= i < git_tree_entrycount tree /\
   exists r, Tree_fix_index tree py_index (no_error calls) = Returns r (no_error calls) /\
             0 <= r < git_tree_entrycount tree) \/
  ((i < - git_tree_entrycount tree \/ git_tree_entrycount tree <= i) /\
   Tree_fix_index tree py_index (no_error calls)
   = Returns (-1)
       (with_error (no_error calls) (Raised PyExc_IndexError (Value py_index)))).
Proof.
  intros Hlen Hlong Hconv.
  assert (Hlen0 : 0 <= git_tree_entrycount tree) by apply Nat2Z.is_nonneg.
  rewrite INT_MAX_value in Hlen. rewrite LONG_MIN_value, LONG_MAX_value in Hlong.
  unfold Tree_fix_index, bind. rewrite Hconv.
  cbn [PyErr_Occurred no_error err_indicator].
  rewrite (to_long_exact (git_tree_entrycount tree))
    by (rewrite LONG_MIN_value, LONG_MAX_value; lia).
  destruct (Z.geb_spec i (git_tree_entrycount tree)); [right; split; [lia|reflexivity]|].
  destruct (Z.ltb_spec i (- git_tree_entrycount tree)); [right; split; [lia|reflexivity]|].
  left. split; [lia|].
  destruct (Z.ltb_spec i 0).
  - exists (git_tree_entrycount tree + i).
    rewrite to_size_t_exact by (rewrite LONG_MAX_value; lia).
    rewrite to_long_exact by (rewrite LONG_MIN_value, LONG_MAX_value; lia).
    rewrite to_int_exact by (unfold INT_MIN; rewrite INT_MAX_value; lia).
    split; [reflexivity|lia].
  - exists i.
    rewrite to_int_exact by (unfold INT_MIN; rewrite INT_MAX_value; lia).
    split; [reflexivity|lia].
Qed.

(** X1: whatever object is given for the index, [Tree_fix_index] on a
    tree of at most [INT_MAX] entries returns: either a position of the
    tree, with no exception set, or [-1] with an exception set. *)
Theorem Tree_fix_index_position_or_error (py_index : PyObject) :
  git_tree_entrycount tree <= INT_MAX ->
  exists r s',
    Tree_fix_index tree py_index (no_error calls) = Returns r s' /\
    ((s' = no_error calls /\ 0 <= r < git_tree_entrycount tree) \/
     (r = -1 /\ exists e, s' = with_error (no_error calls) e)).
Proof.
  intros Hlen.
  assert (Hconverted : forall i,
    LONG_MIN <= i <= LONG_MAX ->
    PyInt_AsLong py_index (no_error calls) = Returns i (no_error calls) ->
    exists r s',
      Tree_fix_index tree py_index (no_error calls) = Returns r s' /\
      ((s' = no_error calls /\ 0 <= r < git_tree_entrycount tree) \/
       (r = -1 /\ exists e, s' = with_error (no_error calls) e))).
  { intros i Hlong Hconv.
    destruct (Tree_fix_index_converted py_index i Hlen Hlong Hconv)
      as [(_ & r & Hrun & Hr)|(_ & Hrun)].
    - exists r, (no_error calls). split; [exact Hrun|]. left. now split.
    - eexists _, _. split; [exact Hrun|]. right. split; [reflexivity|]. now eexists. }
  assert (Hfailed : forall e,
    PyInt_AsLong py_index (no_error calls)
    = Returns (-1) (with_error (no_error calls) e) ->
    exists r s',
      Tree_fix_index tree py_index (no_error calls) = Returns r s' /\
      ((s' = no_error calls /\ 0 <= r < git_tree_entrycount tree) \/
       (r = -1 /\ exists e, s' = with_error (no_error calls) e))).
  { intros e Hconv. eexists _, _. split.
    - unfold Tree_fix_index, bind. rewrite Hconv. reflexivity.
    - right. split; [reflexivity|]. now eexists. }
  destruct py_index as [ | |b|z| | | | | | | ];
    try (apply (Hfailed (Raised PyExc_TypeError Internal)); reflexivity).
  - apply (Hconverted (Z.b2z b)); [|reflexivity].
    rewrite LONG_MIN_value, LONG_MAX_value. destruct b; cbn; lia.
  - destruct (Z.leb_spec LONG_MIN z) as [Hlo|Hlo];
      [destruct (Z.leb_spec z LONG_MAX) as [Hhi|Hhi]|].
    + apply (Hconverted z); [lia|]. unfold PyInt_AsLong.
      destruct (Z.leb_spec LONG_MIN z); [|lia].
      destruct (Z.leb_spec z LONG_MAX); [reflexivity|lia].
    + apply (Hfailed (Raised PyExc_OverflowError Internal)). unfold PyInt_AsLong.
      destruct (Z.leb_spec LONG_MIN z); [|lia].
      destruct (Z.leb_spec z LONG_MAX); [lia|reflexivity].
    + apply (Hfailed (Raised PyExc_OverflowError Internal)). unfold PyInt_AsLong.
      destruct (Z.leb_spec LONG_MIN z); [lia|reflexivity].
Qed.

End FixIndex.

Lemma Tree_fix_index_position_or_error_witness :
  exists r s',
    Tree_fix_index Sample.scenario (PyLong (-2)) (no_error []) = Returns r s' /\
    ((s' = no_error [] /\ 0 <= r < git_tree_entrycount Sample.scenario) \/
     (r = -1 /\ exists e, s' = with_error (no_error []) e)).
Proof.
  apply (Tree_fix_index_position_or_error Sample.scenario [] (PyLong (-2))).
  vm_compute. discriminate.
Defined.

(** ** What a lookup returns *)

Section LookupDiscipline.

Context `{Externals}.

Lemma Tree_fix_index_state (tree : git_tree) (py_index : PyObject)
  (calls : list DiffCall) :
  exists r s',
    Tree_fix_index tree py_index (no_error calls) = Returns r s' /\
    (s' = no_error calls \/ exists e, s' = with_error (no_error calls) e).
Proof.
  unfold Tree_fix_index, bind.
  assert (Hconv : (exists i, PyInt_AsLong py_index (no_error calls)
                             = Returns i (no_error calls)) \/
                  (exists i e, PyInt_AsLong py_index (no_error calls)
                               = Returns i (with_error (no_error calls) e))).
  { destruct py_index as [ | |b|z| | | | | | | ];
      try (right; eexists _, _; reflexivity).
    - left. eexists. reflexivity.
    - unfold PyInt_AsLong.
      destruct ((LONG_MIN <=? z) && (z <=? LONG_MAX));
        [left; eexists; reflexivity|right; eexists _, _; reflexivity]. }
  destruct Hconv as [[i ->]|(i & e & ->)].
  - cbn [PyErr_Occurred no_error err_indicator]. cbv zeta.
    destruct (i >=? to_long (git_tree_entrycount tree));
      [eexists _, _; split; [reflexivity|eauto]|].
    destruct (i <? - to_long (git_tree_entrycount tree));
      eexists _, _; (split; [reflexivity|eauto]).
  - eexists _, _. split; [reflexivity|eauto].
Qed.

(** The two lookups of a tree, seen from a state without exception:
    an entry wrapped with the repository handed in and the state
    untouched, or NULL with an exception set. *)
Lemma tree_getitem_by_index_discipline (tree : git_tree) (repo : option Repository)
  (py_index : PyObject) (calls : list DiffCall) (r : option TreeEntry) (s' : PyState) :
  tree_getitem_by_index tree repo py_index (no_error calls) = Returns r s' ->
  match r with
  | Some e => s' = no_error calls /\ TreeEntry_repo e = wrapped_repo repo
  | None => exists exc, s' = with_error (no_error calls) exc
  end.
Proof.
  unfold tree_getitem_by_index, bind.
  destruct (Tree_fix_index_state tree py_index calls) as (i & s0 & -> & [->|[e ->]]).
  - cbn [PyErr_Occurred no_error err_indicator].
    destruct (git_tree_entry_byindex tree (to_size_t i)) as [entry_src|].
    + destruct (git_tree_entry_dup entry_src) as [entry|err].
      * unfold wrap_tree_entry, PyObject_New, bind.
        destruct (allocates TreeEntryType); cbn; intros Hrun;
          injection Hrun as <- <-;
          first [split; reflexivity|eexists; reflexivity].
      * destruct (err <? 0); [|discriminate].
        cbn. intros Hrun. injection Hrun as <- <-.
        first [split; reflexivity|eexists; reflexivity].
    + cbn. intros Hrun. injection Hrun as <- <-.
        first [split; reflexivity|eexists; reflexivity].
  - cbn. intros Hrun. injection Hrun as <- <-.
        first [split; reflexivity|eexists; reflexivity].
Qed.

Lemma tree_getitem_by_path_discipline (tree : git_tree) (repo : option Repository)
  (py_path : PyObject) (s : PyState) (r : option TreeEntry) (s' : PyState) :
  tree_getitem_by_path tree repo py_path s = Returns r s' ->
  match r with
  | Some e => s' = s /\ TreeEntry_repo e = wrapped_repo repo
  | None => exists exc, s' = with_error s exc
  end.
Proof.
  unfold tree_getitem_by_path, py_path_to_c_str, bind.
  destruct (path_to_c_str py_path) as [e|path].
  - cbn. intros Hrun. injection Hrun as <- <-.
        first [split; reflexivity|eexists; reflexivity].
  - cbn [ret].
    destruct (git_tree_entry_bypath tree path) as [entry|err].
    + unfold wrap_tree_entry, PyObject_New, bind.
      destruct (allocates TreeEntryType); cbn; intros Hrun;
        injection Hrun as <- <-;
          first [split; reflexivity|eexists; reflexivity].
    + destruct (err =? GIT_ENOTFOUND).
      * cbn. intros Hrun. injection Hrun as <- <-.
        first [split; reflexivity|eexists; reflexivity].
      * destruct (err <? 0); [|discriminate].
        cbn. intros Hrun. injection Hrun as <- <-.
        first [split; reflexivity|eexists; reflexivity].
Qed.

(** X2: when [tree[key]] returns, from a state without exception, it
    returns either an entry with no exception set, or NULL with an
    exception set; never NULL without exception, never an entry with
    one.  The repository field of the entry holds the tree's repository
    when the tree has one, and is left unassigned when it has none.  No
    request is made to the diff engine. *)
Theorem Tree_getitem_discipline (self : Tree) (key : PyObject)
  (calls : list DiffCall) (r : option TreeEntry) (s' : PyState) :
  Tree_getitem self key (no_error calls) = Returns r s' ->
  match r with
  | Some e =>
      s' = no_error calls /\
      TreeEntry_repo e = match Tree_repo self with
                         | Some py_repo => repo_is py_repo
                         | None => repo_unassigned
                         end
  | None => exists exc, s' = with_error (no_error calls) exc
  end.
Proof.
  change (match Tree_repo self with
          | Some py_repo => repo_is py_repo
          | None => repo_unassigned
          end) with (wrapped_repo (Tree_repo self)).
  unfold Tree_getitem. destruct (PyInt_Check key).
  - apply tree_getitem_by_index_discipline.
  - apply tree_getitem_by_path_discipline.
Qed.

(** X3: containment answers 1 or 0 with no exception set, or -1 with an
    exception set, on a tree and, when the store reports failures by
    negative codes, on an entry. *)
Theorem contains_discipline (self : Tree) (e : TreeEntry) (py_name : PyObject)
  (calls : list DiffCall) :
  (forall r s',
     Tree_contains self py_name (no_error calls) = Returns r s' ->
     ((r = 1 \/ r = 0) /\ s' = no_error calls) \/
     (r = -1 /\ exists exc, s' = with_error (no_error calls) exc)) /\
  ((forall repo id err, git_tree_lookup repo id = lg2_error err -> err < 0) ->
   forall r s',
     TreeEntry_contains e py_name (no_error calls) = Returns r s' ->
     ((r = 1 \/ r = 0) /\ s' = no_error calls) \/
     (r = -1 /\ exists exc, s' = with_error (no_error calls) exc)).
Proof.
  assert (Hsearch : forall tree s r s',
    (name <- py_path_to_c_str py_name ;;
     match name with
     | None => ret (-1)
     | Some name =>
         match git_tree_entry_bypath tree name with
         | lg2_ok entry => ret 1
         | lg2_error err =>
             if err =? GIT_ENOTFOUND then ret 0
             else if err <? 0 then (@Error_set unit err ;; ret (-1))
             else crash UninitializedRead
         end
     end) s = Returns r s' ->
    ((r = 1 \/ r = 0) /\ s' = s) \/ (r = -1 /\ exists exc, s' = with_error s exc)).
  { intros tree s r s'. unfold py_path_to_c_str, bind.
    destruct (path_to_c_str py_name) as [exc|name].
    - cbn. intros Hrun. injection Hrun as <- <-. eauto.
    - cbn [ret].
      destruct (git_tree_entry_bypath tree name) as [entry|err].
      + intros Hrun. injection Hrun as <- <-. eauto.
      + destruct (err =? GIT_ENOTFOUND).
        * intros Hrun. injection Hrun as <- <-. eauto.
        * destruct (err <? 0); [|discriminate].
          cbn. intros Hrun. injection Hrun as <- <-. eauto. }
  split.
  - intros r s'. apply Hsearch.
  - intros Hcodes r s'. unfold TreeEntry_contains.
    destruct (treeentry_to_subtree e (no_error calls)) as [subtree s0|why] eqn:Hsub.
    + rewrite (bind_Returns _ _ _ _ _ Hsub).
      assert (Hstate : match subtree with
                       | Some _ => s0 = no_error calls
                       | None => exists exc, s0 = with_error (no_error calls) exc
                       end).
      { unfold treeentry_to_subtree, read_repo, bind in Hsub.
        destruct (git_tree_entry_type (TreeEntry_entry e));
          try (injection Hsub as <- <-; eexists; reflexivity).
        destruct (TreeEntry_repo e) as [py_repo| |];
          [|injection Hsub as <- <-; eexists; reflexivity|discriminate Hsub].
        cbn [ret] in Hsub.
        destruct (git_tree_lookup _ _) as [found|err] eqn:Hlookup.
        - injection Hsub as <- <-. reflexivity.
        - apply Hcodes in Hlookup.
          destruct (Z.ltb_spec err 0); [|lia].
          injection Hsub as <- <-. eexists. reflexivity. }
      destruct subtree as [subtree|].
      * subst s0. apply Hsearch.
      * destruct Hstate as [exc ->]. intros Hrun. injection Hrun as <- <-. eauto.
    + rewrite (bind_Crash _ _ _ _ Hsub). discriminate.
Qed.

End LookupDiscipline.

Lemma Tree_getitem_discipline_witness :
  (* an entry of a tree with repository *)
  (no_error [] = no_error [] /\
   TreeEntry_repo {| TreeEntry_entry := Sample.a_txt;
                     TreeEntry_repo := repo_is Sample.the_repo |}
   = repo_is Sample.the_repo) /\
  (* an entry of a tree without repository *)
  (no_error [] = no_error [] /\
   TreeEntry_repo {| TreeEntry_entry := Sample.b_dir;
                     TreeEntry_repo := repo_unassigned |}
   = repo_unassigned) /\
  (* an index out of range *)
  (exists exc,
     with_error (no_error []) (Raised PyExc_IndexError (Value (PyLong 5)))
     = with_error (no_error []) exc).
Proof.
  split; [|split].
  - exact (@Tree_getitem_discipline Sample.env Sample.scenario_tree (PyLong 0) []
             (Some {| TreeEntry_entry := Sample.a_txt;
                      TreeEntry_repo := repo_is Sample.the_repo |})
             (no_error []) eq_refl).
  - exact (@Tree_getitem_discipline Sample.env Sample.orphan_tree (PyBytes "b") []
             (Some {| TreeEntry_entry := Sample.b_dir;
                      TreeEntry_repo := repo_unassigned |})
             (no_error []) eq_refl).
  - exact (@Tree_getitem_discipline Sample.env Sample.scenario_tree (PyLong 5) [] None
             (with_error (no_error []) (Raised PyExc_IndexError (Value (PyLong 5))))
             eq_refl).
Defined.

Lemma Sample_env_codes :
  forall (repo : git_repository) (id : git_oid) (err : Z),
    @git_tree_lookup Sample.env repo id = lg2_error err -> err < 0.
Proof.
  intros repo id err Heq. injection Heq as <-. reflexivity.
Qed.

Lemma contains_discipline_witness :
  (((1 = 1 \/ 1 = 0) /\ no_error [] = no_error []) \/
   (1 = -1 /\ exists exc, no_error [] = with_error (no_error []) exc)) /\
  (((-1 = 1 \/ -1 = 0) /\ with_error (no_error []) no_repository = no_error []) \/
   (-1 = -1 /\
    exists exc, with_error (no_error []) no_repository = with_error (no_error []) exc)).
Proof.
  split.
  - exact (proj1 (@contains_discipline Sample.env Sample.scenario_tree
                    {| TreeEntry_entry := Sample.b_dir; TreeEntry_repo := repo_NULL |}
                    (PyBytes "b") [])
             1 (no_error []) eq_refl).
  - exact (proj2 (@contains_discipline Sample.env Sample.scenario_tree
                    {| TreeEntry_entry := Sample.b_dir; TreeEntry_repo := repo_NULL |}
                    (PyBytes "b") [])
             Sample_env_codes (-1) (with_error (no_error []) no_repository) eq_refl).
Defined.

(** ** An entry and the tree it resolves to *)

Section ThroughSubtree.

Context `{Externals}.

Variable e : TreeEntry.
Variable py_repo : Repository.
Variable key : PyObject.
Variable s : PyState.

(** X4: on a tree entry with a repository whose subtree the store finds,
    the [tree] attribute is that subtree as a Tree of the same
    repository, and indexing, path division and containment on the entry
    are indexing, path division and containment on that Tree. *)
Theorem TreeEntry_operations_on_subtree (subtree : git_tree) :
  git_tree_entry_type (TreeEntry_entry e) = GIT_OBJ_TREE ->
  TreeEntry_repo e = repo_is py_repo ->
  git_tree_lookup (Repository_repo py_repo) (git_tree_entry_id (TreeEntry_entry e))
  = lg2_ok subtree ->
  let resolved := {| Tree_tree := subtree; Tree_repo := Some py_repo |} in
  TreeEntry_tree__get__ e s = Returns (Some (PyTreeObject resolved)) s /\
  TreeEntry_getitem e key s = Tree_getitem resolved key s /\
  TreeEntry_truediv e key s = Tree_truediv resolved key s /\
  TreeEntry_contains e key s = Tree_contains resolved key s.
Proof.
  intros Hkind Hrepo Hlookup resolved.
  assert (Hread : read_repo e s = Returns (Some py_repo) s).
  { unfold read_repo. rewrite Hrepo. reflexivity. }
  assert (Hsub : treeentry_to_subtree e s = Returns (Some subtree) s).
  { unfold treeentry_to_subtree. rewrite Hkind.
    rewrite (bind_Returns _ _ _ _ _ Hread), Hlookup. reflexivity. }
  unfold TreeEntry_tree__get__, TreeEntry_getitem, TreeEntry_truediv,
    TreeEntry_contains, Tree_getitem, Tree_truediv, Tree_contains.
  rewrite !(bind_Returns _ _ _ _ _ Hsub), !(bind_Returns _ _ _ _ _ Hread).
  repeat split; reflexivity.
Qed.

(** X5: a failure of the store (a negative code) on the way to the
    subtree is raised, as the exception of that code, by the [tree]
    attribute, indexing, path division and containment alike; a failure
    of the store on the way to the object of a blob entry is raised by
    the [blob] attribute. *)
Theorem store_failure_is_raised (err : Z) :
  err < 0 ->
  TreeEntry_repo e = repo_is py_repo ->
  (git_tree_entry_type (TreeEntry_entry e) = GIT_OBJ_TREE ->
   git_tree_lookup (Repository_repo py_repo) (git_tree_entry_id (TreeEntry_entry e))
   = lg2_error err ->
   TreeEntry_tree__get__ e s = Returns None (with_error s (git_error err)) /\
   TreeEntry_getitem e key s = Returns None (with_error s (git_error err)) /\
   TreeEntry_truediv e key s = Returns None (with_error s (git_error err)) /\
   TreeEntry_contains e key s = Returns (-1) (with_error s (git_error err))) /\
  (git_tree_entry_type (TreeEntry_entry e) = GIT_OBJ_BLOB ->
   git_tree_entry_to_object (Repository_repo py_repo) (TreeEntry_entry e)
   = lg2_error err ->
   TreeEntry_blob__get__ e s = Returns None (with_error s (git_error err))).
Proof.
  intros Herr Hrepo.
  assert (Hread : read_repo e s = Returns (Some py_repo) s).
  { unfold read_repo. rewrite Hrepo. reflexivity. }
  split.
  - intros Hkind Hlookup.
    assert (Hsub : treeentry_to_subtree e s = Returns None (with_error s (git_error err))).
    { unfold treeentry_to_subtree. rewrite Hkind.
      rewrite (bind_Returns _ _ _ _ _ Hread), Hlookup.
      destruct (Z.ltb_spec err 0); [reflexivity|lia]. }
    unfold TreeEntry_tree__get__, TreeEntry_getitem, TreeEntry_truediv,
      TreeEntry_contains.
    rewrite !(bind_Returns _ _ _ _ _ Hsub). repeat split; reflexivity.
  - intros Hkind Hobject.
    unfold TreeEntry_blob__get__, treeentry_to_object.
    rewrite Hkind, (bind_Returns _ _ _ _ _ Hread), Hobject.
    destruct (Z.ltb_spec err 0); [reflexivity|lia].
Qed.

End ThroughSubtree.

Lemma TreeEntry_operations_on_subtree_witness :
  let b := {| TreeEntry_entry := Sample.b_dir; TreeEntry_repo := repo_is Sample.the_repo |} in
  let resolved := {| Tree_tree := Sample.b_subtree; Tree_repo := Some Sample.the_repo |} in
  @TreeEntry_tree__get__ Sample.stocked b (no_error [])
  = Returns (Some (PyTreeObject resolved)) (no_error []) /\
  @TreeEntry_getitem Sample.stocked b (PyLong 0) (no_error [])
  = @Tree_getitem Sample.stocked resolved (PyLong 0) (no_error []) /\
  @TreeEntry_truediv Sample.stocked b (PyLong 0) (no_error [])
  = @Tree_truediv Sample.stocked resolved (PyLong 0) (no_error []) /\
  @TreeEntry_contains Sample.stocked b (PyLong 0) (no_error [])
  = @Tree_contains Sample.stocked resolved (PyLong 0) (no_error []).
Proof.
  exact (@TreeEntry_operations_on_subtree Sample.stocked
           {| TreeEntry_entry := Sample.b_dir; TreeEntry_repo := repo_is Sample.the_repo |}
           Sample.the_repo (PyLong 0) (no_error []) Sample.b_subtree
           eq_refl eq_refl eq_refl).
Defined.

Lemma store_failure_is_raised_witness :
  let b := {| TreeEntry_entry := Sample.b_dir; TreeEntry_repo := repo_is Sample.the_repo |} in
  @TreeEntry_tree__get__ Sample.env b (no_error [])
  = Returns None (with_error (no_error []) (git_error GIT_ENOTFOUND)) /\
  @TreeEntry_getitem Sample.env b (PyBytes "c.txt") (no_error [])
  = Returns None (with_error (no_error []) (git_error GIT_ENOTFOUND)) /\
  @TreeEntry_truediv Sample.env b (PyBytes "c.txt") (no_error [])
  = Returns None (with_error (no_error []) (git_error GIT_ENOTFOUND)) /\
  @TreeEntry_contains Sample.env b (PyBytes "c.txt") (no_error [])
  = Returns (-1) (with_error (no_error []) (git_error GIT_ENOTFOUND)).
Proof.
  apply (proj1 (@store_failure_is_raised Sample.env
           {| TreeEntry_entry := Sample.b_dir; TreeEntry_repo := repo_is Sample.the_repo |}
           Sample.the_repo (PyBytes "c.txt") (no_error []) GIT_ENOTFOUND
           eq_refl eq_refl)); reflexivity.
Defined.

(** ** More on the diff entry points *)

Section DiffMore.

Context `{Externals}.

Variable s : PyState.

(** X6: with a repository and accepted arguments, [diff_to_workdir]
    makes one request to the engine, for the tree of [self] with the
    parsed options; it returns the engine's Diff for the repository of
    [self], or raises the exception of the engine's negative code. *)
Theorem Tree_diff_to_workdir_request (self : Tree) (py_repo : Repository)
  (args : list PyObject) (opts : git_diff_options) :
  Tree_repo self = Some py_repo ->
  parse_workdir_args args GIT_DIFF_OPTIONS_INIT = inr opts ->
  let call := diff_tree_to_workdir (Repository_repo py_repo) (Tree_tree self) opts in
  (forall diff,
     git_diff_tree_to_workdir (Repository_repo py_repo) (Tree_tree self) opts
     = lg2_ok diff ->
     Tree_diff_to_workdir self args s
     = Returns (Some (PyDiffObject diff py_repo)) (after_request s call)) /\
  (forall err,
     git_diff_tree_to_workdir (Repository_repo py_repo) (Tree_tree self) opts
     = lg2_error err ->
     err < 0 ->
     Tree_diff_to_workdir self args s
     = Returns None (with_error (after_request s call) (git_error err))).
Proof.
  intros Hrepo Hparse call.
  unfold Tree_diff_to_workdir, bind. rewrite Hparse, Hrepo.
  cbn [PyArg_Parse ret request]. split.
  - intros diff ->. reflexivity.
  - intros err -> Herr. cbn [diff_result].
    destruct (Z.ltb_spec err 0); [reflexivity|lia].
Qed.

(** X7: arguments that are not accepted end each of the three diff
    entry points with the exception of the parser, before the repository
    is read and with no request to the engine: so also on a Tree without
    repository.  In particular [diff_to_tree] rejects a first argument
    that is not a Tree, None included, and [diff_to_index] a call
    without arguments. *)
Theorem diff_arguments_rejected (self : Tree) (args : list PyObject)
  (kwds : list (string * PyObject)) :
  (forall exc,
     parse_workdir_args args GIT_DIFF_OPTIONS_INIT = inl exc ->
     Tree_diff_to_workdir self args s = Returns None (with_error s exc)) /\
  (forall exc,
     parse_index_args args GIT_DIFF_OPTIONS_INIT = inl exc ->
     Tree_diff_to_index self args kwds s = Returns None (with_error s exc)) /\
  (forall exc,
     parse_tree_args args kwds GIT_DIFF_OPTIONS_INIT 0 = inl exc ->
     Tree_diff_to_tree self args kwds s = Returns None (with_error s exc)) /\
  (forall o rest,
     (forall t, o <> PyTreeObject t) ->
     Tree_diff_to_tree self (o :: rest) kwds s
     = Returns None (with_error s (Raised PyExc_TypeError Internal))) /\
  Tree_diff_to_index self [] kwds s
  = Returns None (with_error s (Raised PyExc_TypeError Internal)).
Proof.
  split; [|split; [|split; [|split]]].
  - intros exc Hparse. unfold Tree_diff_to_workdir, bind. rewrite Hparse. reflexivity.
  - intros exc Hparse. unfold Tree_diff_to_index, bind. rewrite Hparse. reflexivity.
  - intros exc Hparse. unfold Tree_diff_to_tree, bind. rewrite Hparse. reflexivity.
  - intros o rest Hother.
    assert (Hparse : parse_tree_args (o :: rest) kwds GIT_DIFF_OPTIONS_INIT 0
                     = inl (Raised PyExc_TypeError Internal)).
    { unfold parse_tree_args.
      destruct (5 <? List.length (o :: rest) + List.length kwds)%nat; [reflexivity|].
      cbn [argument nth_error optional].
      destruct o; try reflexivity. now contradiction (Hother t). }
    unfold Tree_diff_to_tree, bind. rewrite Hparse. reflexivity.
  - reflexivity.
Qed.

(** X8: asking tree [A] for the diff to tree [B] with [swap] set is
    asking tree [B] for the diff to tree [A] without it: for trees of one
    repository and the same options, the two calls make the same request
    to the engine and return the same. *)
Theorem diff_to_tree_swap_symmetry (A B : git_tree) (py_repo : Repository)
  (options : list PyObject) (swap : Z) :
  (List.length options <= 3)%nat ->
  0 < swap <= INT_MAX ->
  Tree_diff_to_tree {| Tree_tree := A; Tree_repo := Some py_repo |}
    (PyTreeObject {| Tree_tree := B; Tree_repo := Some py_repo |} :: options)
    [("swap", PyLong swap)] s
  = Tree_diff_to_tree {| Tree_tree := B; Tree_repo := Some py_repo |}
      (PyTreeObject {| Tree_tree := A; Tree_repo := Some py_repo |} :: options)
      [] s.
Proof.
  intros Hlen Hswap.
  assert (Hint : (INT_MIN <=? swap) && (swap <=? INT_MAX) = true).
  { apply andb_true_intro. split; apply Z.leb_le; [|lia].
    unfold INT_MIN. lia. }
  assert (Hpos : (swap >? 0) = true) by (rewrite Z.gtb_ltb; apply Z.ltb_lt; lia).
  unfold Tree_diff_to_tree, parse_tree_args, bind.
  destruct options as [|f [|c [|i [|x options]]]]; [| | | |(cbn in Hlen; lia)];
    cbn [List.length Nat.add Nat.ltb Nat.leb argument nth_error
         String.eqb Ascii.eqb Bool.eqb lookup_attr optional convert_Tree convert_i];
    rewrite Hint;
    destruct (parse_IHH _ _ _ _) as [exc|opts];
    cbn [forallb keyword_accepted index_of keywords fst option_map List.length
         Nat.leb String.eqb Ascii.eqb Bool.eqb andb PyArg_Parse ret];
    try reflexivity;
    rewrite Hpos; reflexivity.
Qed.

End DiffMore.

Lemma Tree_diff_to_workdir_request_witness :
  @Tree_diff_to_workdir Sample.env Sample.scenario_tree [PyLong 4294967297; PyLong 5]
    (no_error [])
  = Returns (Some (PyDiffObject 1%nat Sample.the_repo))
      (after_request (no_error [])
         (diff_tree_to_workdir 7%nat Sample.scenario
            {| flags := 1; context_lines := 5; interhunk_lines := 0 |})).
Proof.
  apply (proj1 (@Tree_diff_to_workdir_request Sample.env (no_error [])
                  Sample.scenario_tree Sample.the_repo
                  [PyLong 4294967297; PyLong 5]
                  {| flags := 1; context_lines := 5; interhunk_lines := 0 |}
                  eq_refl eq_refl)).
  reflexivity.
Defined.

Lemma diff_arguments_rejected_witness :
  @Tree_diff_to_tree Sample.env Sample.orphan_tree [Py_None] [] (no_error [])
  = Returns None (with_error (no_error []) (Raised PyExc_TypeError Internal)).
Proof.
  apply (proj1 (proj2 (proj2 (proj2
           (@diff_arguments_rejected Sample.env (no_error []) Sample.orphan_tree
              [] []))))).
  intros t Heq. discriminate Heq.
Defined.

Lemma diff_to_tree_swap_symmetry_witness :
  @Tree_diff_to_tree Sample.env
    {| Tree_tree := Sample.scenario; Tree_repo := Some Sample.the_repo |}
    [PyTreeObject {| Tree_tree := Sample.b_subtree; Tree_repo := Some Sample.the_repo |};
     PyLong 2]
    [("swap", PyLong 1)] (no_error [])
  = @Tree_diff_to_tree Sample.env
      {| Tree_tree := Sample.b_subtree; Tree_repo := Some Sample.the_repo |}
      [PyTreeObject {| Tree_tree := Sample.scenario; Tree_repo := Some Sample.the_repo |};
       PyLong 2]
      [] (no_error []).
Proof.
  apply (@diff_to_tree_swap_symmetry Sample.env (no_error []) Sample.scenario
           Sample.b_subtree Sample.the_repo [PyLong 2] 1).
  - cbn. lia.
  - split; [lia|]. vm_compute. discriminate.
Defined.

(** ** More on the comparison of entries *)

Section ComparisonMore.

Context `{Externals}.

Variable a b : TreeEntry.
Variable s : PyState.

(** X9: on entries that the two-level comparison tells apart, the six
    operators read its result in the standard way: the exchange of the
    tests of [<] and [<=] shows on ties only. *)
Theorem TreeEntry_richcompare_apart :
  two_level a b <> 0 ->
  TreeEntry_richcompare a (PyTreeEntryObject b) Py_LT s
  = Returns (Some (Py_Bool (two_level a b <? 0))) s /\
  TreeEntry_richcompare a (PyTreeEntryObject b) Py_LE s
  = Returns (Some (Py_Bool (two_level a b <=? 0))) s /\
  TreeEntry_richcompare a (PyTreeEntryObject b) Py_EQ s = Returns (Some Py_False) s /\
  TreeEntry_richcompare a (PyTreeEntryObject b) Py_NE s = Returns (Some Py_True) s /\
  TreeEntry_richcompare a (PyTreeEntryObject b) Py_GT s
  = Returns (Some (Py_Bool (0 <? two_level a b))) s /\
  TreeEntry_richcompare a (PyTreeEntryObject b) Py_GE s
  = Returns (Some (Py_Bool (0 <=? two_level a b))) s.
Proof.
  intros Hapart. rewrite !TreeEntry_richcompare_result. cbn.
  rewrite Z.gtb_ltb, Z.geb_leb.
  destruct (Z.eqb_spec (two_level a b) 0) as [Heq|_]; [contradiction|].
  assert (Hsame : (two_level a b <=? 0) = (two_level a b <? 0)).
  { destruct (Z.leb_spec (two_level a b) 0), (Z.ltb_spec (two_level a b) 0);
      try reflexivity; lia. }
  rewrite Hsame. repeat split; reflexivity.
Qed.

(** X10: on any two entries each operator answers the negation of its
    mirror: [a > b] is the negation of [a < b], [a >= b] of [a <= b] and
    [a != b] of [a == b]; no comparison raises an exception. *)
Theorem TreeEntry_richcompare_mirrored :
  exists lt le eq : bool,
    TreeEntry_richcompare a (PyTreeEntryObject b) Py_LT s
    = Returns (Some (Py_Bool lt)) s /\
    TreeEntry_richcompare a (PyTreeEntryObject b) Py_GT s
    = Returns (Some (Py_Bool (negb lt))) s /\
    TreeEntry_richcompare a (PyTreeEntryObject b) Py_LE s
    = Returns (Some (Py_Bool le)) s /\
    TreeEntry_richcompare a (PyTreeEntryObject b) Py_GE s
    = Returns (Some (Py_Bool (negb le))) s /\
    TreeEntry_richcompare a (PyTreeEntryObject b) Py_EQ s
    = Returns (Some (Py_Bool eq)) s /\
    TreeEntry_richcompare a (PyTreeEntryObject b) Py_NE s
    = Returns (Some (Py_Bool (negb eq))) s.
Proof.
  exists (two_level a b <=? 0), (two_level a b <? 0), (two_level a b =? 0).
  rewrite !TreeEntry_richcompare_result. cbn.
  rewrite Z.gtb_ltb, Z.geb_leb.
  destruct (Z.leb_spec (two_level a b) 0), (Z.ltb_spec (two_level a b) 0),
    (Z.ltb_spec 0 (two_level a b)), (Z.leb_spec 0 (two_level a b));
    try lia; repeat split; reflexivity.
Qed.

End ComparisonMore.

Lemma TreeEntry_richcompare_apart_witness :
  let file := entry_of Sample.scenario_tree Sample.a_txt in
  let dir := entry_of Sample.scenario_tree Sample.b_dir in
  @TreeEntry_richcompare Sample.env file (PyTreeEntryObject dir) Py_LT (no_error [])
  = Returns (Some (Py_Bool true)) (no_error []) /\
  @TreeEntry_richcompare Sample.env file (PyTreeEntryObject dir) Py_LE (no_error [])
  = Returns (Some (Py_Bool true)) (no_error []).
Proof.
  pose proof (@TreeEntry_richcompare_apart Sample.env
                (entry_of Sample.scenario_tree Sample.a_txt)
                (entry_of Sample.scenario_tree Sample.b_dir)
                (no_error [])) as Happly.
  split; apply Happly; vm_compute; discriminate.
Defined.

(** ** More on iteration *)

Section IterationMore.

Context `{Externals}.

Variable T : Tree.
Variable calls : list DiffCall.

(** X11: iteration and indexing agree: the entry that iteration yields
    in place [k] is the entry that [T[k]] returns, and that [T[k - len]]
    returns (a tree of at most [INT_MAX] entries, memory available). *)
Theorem iteration_agrees_with_indexing (n : nat) :
  allocation_succeeds ->
  git_tree_entrycount (Tree_tree T) <= INT_MAX ->
  (List.length (Tree_tree T) < n)%nat ->
  exists yielded it,
    collect n (iterator_at T 0) (no_error calls)
    = Returns (yielded, true, it) (no_error calls) /\
    forall k,
      0 <= k < git_tree_entrycount (Tree_tree T) ->
      nth_error yielded (Z.to_nat k) <> None /\
      Tree_getitem T (PyLong k) (no_error calls)
      = Returns (nth_error yielded (Z.to_nat k)) (no_error calls) /\
      Tree_getitem T (PyLong (k - git_tree_entrycount (Tree_tree T))) (no_error calls)
      = Returns (nth_error yielded (Z.to_nat k)) (no_error calls).
Proof.
  intros Halloc Hlen Hn.
  exists (map (entry_of T) (Tree_tree T)),
         (iterator_at T (git_tree_entrycount (Tree_tree T))).
  split.
  - exact (collect_from T (no_error calls) n 0 Halloc ltac:(lia) ltac:(lia)).
  - intros k Hk.
    assert (Hmax : git_tree_entrycount (Tree_tree T) <= LONG_MAX)
      by (rewrite INT_MAX_value in Hlen; rewrite LONG_MAX_value; lia).
    assert (Hat : forall i,
      Tree_fix_index (Tree_tree T) (PyLong i) (no_error calls)
      = Returns k (no_error calls) ->
      Tree_getitem T (PyLong i) (no_error calls)
      = Returns (nth_error (map (entry_of T) (Tree_tree T)) (Z.to_nat k))
          (no_error calls)).
    { intros i Hfix.
      destruct (tree_getitem_at_position (Tree_tree T) (Tree_repo T) calls i k
                  Halloc Hk ltac:(lia) Hfix) as (e & Hnth & Hget).
      unfold Tree_getitem. cbn [PyInt_Check].
      rewrite Hget, nth_error_map, Hnth. reflexivity. }
    split; [|split].
    + rewrite nth_error_map.
      destruct (nth_error (Tree_tree T) (Z.to_nat k)) eqn:Hnth; [discriminate|].
      apply nth_error_None in Hnth. unfold git_tree_entrycount in Hk. lia.
    + apply Hat. rewrite Tree_fix_index_in_range by lia.
      destruct (Z.ltb_spec k 0); [lia|reflexivity].
    + apply Hat. rewrite Tree_fix_index_in_range by lia.
      destruct (Z.ltb_spec (k - git_tree_entrycount (Tree_tree T)) 0); [|lia].
      f_equal. lia.
Qed.

(** X12: [next] keeps the cursor between 0 and the entry count, never
    moves it back and never changes the owner, whether memory is
    available or not; an entry is returned only with the cursor moved by
    one. *)
Theorem TreeIter_cursor_invariant (it it' : TreeIter) (s s' : PyState)
  (r : option TreeEntry) :
  TreeIter_iternext it s = Returns (r, it') s' ->
  0 <= TreeIter_i it <= git_tree_entrycount (Tree_tree (TreeIter_owner it)) ->
  TreeIter_owner it' = TreeIter_owner it /\
  TreeIter_i it <= TreeIter_i it'
    <= git_tree_entrycount (Tree_tree (TreeIter_owner it)) /\
  (r <> None -> TreeIter_i it' = TreeIter_i it + 1).
Proof.
  unfold TreeIter_iternext, git_tree_entry_byindex. intros Hrun Hi.
  destruct (Z.ltb_spec (TreeIter_i it) 0); [lia|].
  destruct (nth_error (Tree_tree (TreeIter_owner it)) (Z.to_nat (TreeIter_i it)))
    as [entry_src|] eqn:Hnth.
  - assert (Hlt : (Z.to_nat (TreeIter_i it)
                   < List.length (Tree_tree (TreeIter_owner it)))%nat)
      by (apply nth_error_Some; congruence).
    assert (Hnext : TreeIter_i it + 1
                    <= git_tree_entrycount (Tree_tree (TreeIter_owner it)))
      by (unfold git_tree_entrycount; lia).
    destruct (git_tree_entry_dup entry_src) as [entry|err].
    + unfold wrap_tree_entry, PyObject_New, bind in Hrun.
      destruct (allocates TreeEntryType); cbn in Hrun;
        injection Hrun as <- <- <-; cbn [TreeIter_owner TreeIter_i];
        repeat split; lia.
    + destruct (err <? 0); [|discriminate Hrun].
      cbn in Hrun. injection Hrun as <- <- <-. cbn [TreeIter_owner TreeIter_i].
      repeat split; lia.
  - injection Hrun as <- <- <-. repeat split; try lia.
    intros Hsome. now contradiction Hsome.
Qed.

(** X13: when the entry at position [k] cannot be duplicated for want of
    memory, [T[k]] raises MemoryError, and so does [next] at that
    position, with the cursor already moved past the entry. *)
Theorem duplication_failure (k : nat) (e : git_tree_entry) (err : Z) :
  nth_error (Tree_tree T) k = Some e ->
  git_tree_entry_dup e = lg2_error err ->
  err < 0 ->
  TreeIter_iternext (iterator_at T (Z.of_nat k)) (no_error calls)
  = Returns (None, iterator_at T (Z.of_nat k + 1))
      (with_error (no_error calls) (Raised PyExc_MemoryError NoValue)) /\
  (git_tree_entrycount (Tree_tree T) <= INT_MAX ->
   Tree_getitem T (PyLong (Z.of_nat k)) (no_error calls)
   = Returns None (with_error (no_error calls) (Raised PyExc_MemoryError NoValue))).
Proof.
  intros Hnth Hdup Herr.
  assert (Hlt : (k < List.length (Tree_tree T))%nat)
    by (apply nth_error_Some; congruence).
  split.
  - unfold TreeIter_iternext, iterator_at. cbn [TreeIter_owner TreeIter_i].
    rewrite git_tree_entry_byindex_nat, Hnth, Hdup.
    destruct (Z.ltb_spec err 0); [reflexivity|lia].
  - intros Hlen.
    assert (Hfix : Tree_fix_index (Tree_tree T) (PyLong (Z.of_nat k)) (no_error calls)
                   = Returns (Z.of_nat k) (no_error calls)).
    { rewrite Tree_fix_index_in_range by (unfold git_tree_entrycount in *; lia).
      destruct (Z.ltb_spec (Z.of_nat k) 0); [lia|reflexivity]. }
    unfold Tree_getitem. cbn [PyInt_Check].
    unfold tree_getitem_by_index, bind. rewrite Hfix.
    cbn [PyErr_Occurred no_error err_indicator].
    rewrite to_size_t_exact
      by (rewrite INT_MAX_value in Hlen; rewrite LONG_MAX_value;
          unfold git_tree_entrycount in Hlen; lia).
    rewrite git_tree_entry_byindex_nat, Hnth, Hdup.
    destruct (Z.ltb_spec err 0); [reflexivity|lia].
Qed.

End IterationMore.

Lemma iteration_agrees_with_indexing_witness :
  exists yielded it,
    @collect Sample.env 3 (iterator_at Sample.scenario_tree 0) (no_error [])
    = Returns (yielded, true, it) (no_error []) /\
    forall k,
      0 <= k < git_tree_entrycount (Tree_tree Sample.scenario_tree) ->
      nth_error yielded (Z.to_nat k) <> None /\
      @Tree_getitem Sample.env Sample.scenario_tree (PyLong k) (no_error [])
      = Returns (nth_error yielded (Z.to_nat k)) (no_error []) /\
      @Tree_getitem Sample.env Sample.scenario_tree
        (PyLong (k - git_tree_entrycount (Tree_tree Sample.scenario_tree))) (no_error [])
      = Returns (nth_error yielded (Z.to_nat k)) (no_error []).
Proof.
  apply (@iteration_agrees_with_indexing Sample.env Sample.scenario_tree [] 3%nat
           Sample_allocation_succeeds).
  - vm_compute. discriminate.
  - cbn. lia.
Defined.

Lemma TreeIter_cursor_invariant_witness :
  TreeIter_owner (iterator_at Sample.scenario_tree 2)
  = TreeIter_owner (iterator_at Sample.scenario_tree 1) /\
  TreeIter_i (iterator_at Sample.scenario_tree 1)
  <= TreeIter_i (iterator_at Sample.scenario_tree 2)
  <= git_tree_entrycount
       (Tree_tree (TreeIter_owner (iterator_at Sample.scenario_tree 1))) /\
  (Some (entry_of Sample.scenario_tree Sample.b_dir) <> None ->
   TreeIter_i (iterator_at Sample.scenario_tree 2)
   = TreeIter_i (iterator_at Sample.scenario_tree 1) + 1).
Proof.
  apply (@TreeIter_cursor_invariant Sample.env (iterator_at Sample.scenario_tree 1)
           (iterator_at Sample.scenario_tree 2) (no_error []) (no_error [])
           (Some (entry_of Sample.scenario_tree Sample.b_dir))).
  - reflexivity.
  - split; vm_compute; discriminate.
Defined.

Lemma duplication_failure_witness :
  @TreeIter_iternext Sample.exhausted (iterator_at Sample.scenario_tree 0) (no_error [])
  = Returns (None, iterator_at Sample.scenario_tree 1)
      (with_error (no_error []) (Raised PyExc_MemoryError NoValue)).
Proof.
  apply (proj1 (@duplication_failure Sample.exhausted Sample.scenario_tree [] 0%nat
                  Sample.a_txt (-1) eq_refl eq_refl eq_refl)).
Defined.

(** ** What a lookup on an entry returns *)

Section EntryLookupDiscipline.

Context `{Externals}.

(** X14: when the store reports failures by negative codes, [entry[key]]
    and [entry / path] return, from a state without exception, either an
    entry that carries the repository of [entry] (so that it can be
    resolved in turn), with no exception set, or NULL with an exception
    set. *)
Theorem TreeEntry_lookup_discipline (e : TreeEntry) (key : PyObject)
  (calls : list DiffCall) :
  (forall repo id err, git_tree_lookup repo id = lg2_error err -> err < 0) ->
  forall r s',
    TreeEntry_getitem e key (no_error calls) = Returns r s' \/
    TreeEntry_truediv e key (no_error calls) = Returns r s' ->
    match r with
    | Some found => s' = no_error calls /\ TreeEntry_repo found = TreeEntry_repo e
    | None => exists exc, s' = with_error (no_error calls) exc
    end.
Proof.
  intros Hcodes r s'.
  assert (Hsubtree : forall subtree s0,
    treeentry_to_subtree e (no_error calls) = Returns subtree s0 ->
    match subtree with
    | Some _ => s0 = no_error calls /\
                exists py_repo, TreeEntry_repo e = repo_is py_repo
    | None => exists exc, s0 = with_error (no_error calls) exc
    end).
  { intros subtree s0 Hsub.
    unfold treeentry_to_subtree, read_repo, bind in Hsub.
    destruct (git_tree_entry_type (TreeEntry_entry e));
      try (injection Hsub as <- <-; eexists; reflexivity).
    destruct (TreeEntry_repo e) as [py_repo| |];
      [|injection Hsub as <- <-; eexists; reflexivity|discriminate Hsub].
    cbn [ret] in Hsub.
    destruct (git_tree_lookup _ _) as [found|err] eqn:Hlookup.
    - injection Hsub as <- <-. split; [reflexivity|]. now exists py_repo.
    - apply Hcodes in Hlookup.
      destruct (Z.ltb_spec err 0); [|lia].
      injection Hsub as <- <-. eexists. reflexivity. }
  unfold TreeEntry_getitem, TreeEntry_truediv.
  destruct (treeentry_to_subtree e (no_error calls)) as [subtree s0|why] eqn:Hsub.
  - rewrite !(bind_Returns _ _ _ _ _ Hsub).
    specialize (Hsubtree subtree s0 eq_refl).
    destruct subtree as [subtree|].
    + destruct Hsubtree as (-> & py_repo & Hrepo).
      assert (Hread : read_repo e (no_error calls)
                      = Returns (Some py_repo) (no_error calls)).
      { unfold read_repo. rewrite Hrepo. reflexivity. }
      rewrite !(bind_Returns _ _ _ _ _ Hread), Hrepo.
      change (repo_is py_repo) with (wrapped_repo (Some py_repo)).
      intros [Hrun|Hrun].
      * destruct (PyInt_Check key).
        -- exact (tree_getitem_by_index_discipline _ _ _ _ _ _ Hrun).
        -- exact (tree_getitem_by_path_discipline _ _ _ _ _ _ Hrun).
      * exact (tree_getitem_by_path_discipline _ _ _ _ _ _ Hrun).
    + destruct Hsubtree as [exc ->].
      intros [Hrun|Hrun]; injection Hrun as <- <-; eexists; reflexivity.
  - rewrite !(bind_Crash _ _ _ _ Hsub). intros [Hrun|Hrun]; discriminate Hrun.
Qed.

End EntryLookupDiscipline.

Lemma Sample_stocked_codes :
  forall (repo : git_repository) (id : git_oid) (err : Z),
    @git_tree_lookup Sample.stocked repo id = lg2_error err -> err < 0.
Proof.
  intros repo id err. cbn. unfold Sample.lookup_store.
  destruct (Sample.oid_eqb id Sample.one_oid); [discriminate|].
  intros Heq. injection Heq as <-. reflexivity.
Qed.

Lemma TreeEntry_lookup_discipline_witness :
  no_error [] = no_error [] /\
  TreeEntry_repo {| TreeEntry_entry := Sample.c_txt; TreeEntry_repo := repo_is Sample.the_repo |}
  = TreeEntry_repo {| TreeEntry_entry := Sample.b_dir; TreeEntry_repo := repo_is Sample.the_repo |}.
Proof.
  exact (@TreeEntry_lookup_discipline Sample.stocked
           {| TreeEntry_entry := Sample.b_dir; TreeEntry_repo := repo_is Sample.the_repo |}
           (PyLong 0) [] Sample_stocked_codes
           (Some {| TreeEntry_entry := Sample.c_txt;
                    TreeEntry_repo := repo_is Sample.the_repo |})
           (no_error []) (or_introl eq_refl)).
Defined.

(** ** Entries of a tree without repository *)

Section WithoutRepository.

Context `{Externals}.

(** X15: the entries that a Tree without repository hands out have a
    repository field that was never assigned.  On such an entry of kind
    tree, the [tree] attribute, indexing, path division and containment
    read that field: the behaviour is undefined, no ValueError is
    raised; so does the [blob] attribute on such an entry of kind
    blob. *)
Theorem resolution_reads_unassigned_repository (T : Tree) (e : git_tree_entry)
  (key : PyObject) (s : PyState) :
  Tree_repo T = None ->
  (git_tree_entry_type e = GIT_OBJ_TREE ->
   TreeEntry_tree__get__ (entry_of T e) s = Crash UninitializedRead /\
   TreeEntry_contains (entry_of T e) key s = Crash UninitializedRead /\
   TreeEntry_getitem (entry_of T e) key s = Crash UninitializedRead /\
   TreeEntry_truediv (entry_of T e) key s = Crash UninitializedRead) /\
  (git_tree_entry_type e = GIT_OBJ_BLOB ->
   TreeEntry_blob__get__ (entry_of T e) s = Crash UninitializedRead).
Proof.
  intros Hrepo. split.
  - intros Hkind. apply through_subtree_crash.
    unfold treeentry_to_subtree, read_repo, entry_of.
    cbn [TreeEntry_entry TreeEntry_repo]. rewrite Hkind, Hrepo. reflexivity.
  - intros Hkind. unfold TreeEntry_blob__get__, treeentry_to_object, read_repo, entry_of.
    cbn [TreeEntry_entry TreeEntry_repo]. rewrite Hkind, Hrepo. reflexivity.
Qed.

End WithoutRepository.

Lemma resolution_reads_unassigned_repository_witness :
  (* the directory of the tree without repository, as [tree[1]] returns it *)
  @Tree_getitem Sample.env Sample.orphan_tree (PyLong 1) (no_error [])
  = Returns (Some (entry_of Sample.orphan_tree Sample.b_dir)) (no_error []) /\
  @TreeEntry_tree__get__ Sample.env (entry_of Sample.orphan_tree Sample.b_dir)
    (no_error [])
  = Crash UninitializedRead /\
  @TreeEntry_blob__get__ Sample.env (entry_of Sample.orphan_tree Sample.a_txt)
    (no_error [])
  = Crash UninitializedRead.
Proof.
  split; [reflexivity|]. split.
  - apply (proj1 (@resolution_reads_unassigned_repository Sample.env Sample.orphan_tree
                    Sample.b_dir Py_None (no_error []) eq_refl)).
    reflexivity.
  - apply (proj2 (@resolution_reads_unassigned_repository Sample.env Sample.orphan_tree
                    Sample.a_txt Py_None (no_error []) eq_refl)).
    reflexivity.
Defined.

(** A path of two segments is resolved through the store, and gives the
    entry that descending by hand gives. *)
Example scenario_descent :
  @Tree_getitem Sample.stocked Sample.scenario_tree (PyUnicode "b/c.txt") (no_error [])
  = Returns (Some (entry_of Sample.scenario_tree Sample.c_txt)) (no_error []) /\
  @TreeEntry_getitem Sample.stocked (entry_of Sample.scenario_tree Sample.b_dir)
    (PyUnicode "c.txt") (no_error [])
  = Returns (Some (entry_of Sample.scenario_tree Sample.c_txt)) (no_error []).
Proof. split; reflexivity. Qed.
